(** * Company service: branches (sucursales) and warehouses (almacenes)

    A shallow embedding of the request handlers of [app/routers/sucursales.py]
    and [app/routers/almacenes.py], together with the tables declared in
    [app/models] and the request and response schemas of [app/schemas].

    - A table with a primary key is a finite map from the key to the other
      columns of the row; a link table whose columns are all part of the
      composite key is a finite set of pairs.
    - A handler is a computation over the session, in an error monad over the
      store: it either returns a response or raises.  The store that comes
      with a raised error is the session's pending state at the point where
      the exception left the handler; committing or discarding it is the work
      of the session dependency [get_db], which the routers only import.
    - A handler receives its body already parsed and validated against the
      schema, and runs after [require_permission] has let the caller in.
    - [require_permission] and pydantic's [EmailStr] are not part of the
      routers; both are parameters of the operations that use them.
    - Timestamps are integers; [datetime.utcnow] is the [now] argument of the
      handlers that insert a row. *)

From stdpp Require Import gmap strings list fin_maps sorting.

Open Scope string_scope.
Open Scope Z_scope.

(** ** Tables ([app/models]) *)

(** [sucursales]: the key of the table is [id_sucursal]. *)
Record Sucursal := mkSucursal {
  s_nombre : string;                 (* String(50), not null *)
  s_direccion : string;              (* String(100), not null *)
  s_telefono : option string;        (* String(15), nullable *)
  s_estado : bool;                   (* not null, default True *)
  s_fecha_creacion : Z;              (* not null, default utcnow *)
  s_empresas_id_empresa : Z          (* not null *)
}.

(** [almacenes]: the key of the table is [id_almacen]. *)
Record Almacen := mkAlmacen {
  a_nombre : string;                 (* String(70), not null *)
  a_descripcion : option string;     (* String(300), nullable *)
  a_es_principal : bool;             (* not null, default False *)
  a_estado : bool;                   (* not null, default True *)
  a_fecha_creacion : Z;
  a_empresas_id_empresa : Z
}.

(** [usuarios] belongs to another service; the handlers read these columns of
    it with raw SQL, and [id_usuario] is its key.  The table is not declared
    in this repository, so a column the handlers only display may hold null. *)
Record Usuario := mkUsuario {
  u_nombre : option string;
  u_apellido : option string;
  u_email : option string;
  u_es_dueno : option bool;
  u_estado : option bool;
  u_fecha_creacion : option Z;
  u_empresas_id_empresa : Z
}.

(** The datastore as a session sees it.  [sucursales_almacenes] holds pairs
    (sucursales_id_sucursal, almacenes_id_almacen) and [usuarios_sucursales]
    pairs (usuarios_id_usuario, sucursales_id_sucursal). *)
Record Store := mkStore {
  sucursales : gmap Z Sucursal;
  almacenes : gmap Z Almacen;
  sucursales_almacenes : gset (Z * Z);
  usuarios : gmap Z Usuario;
  usuarios_sucursales : gset (Z * Z)
}.

(** ** The caller ([app.deps.CurrentUser], read as [current_user.empresa.id_empresa]) *)

Record Empresa := mkEmpresa { id_empresa : Z }.
Record CurrentUser := mkCurrentUser { empresa : Empresa }.

(** ** Schemas ([app/schemas]) *)

Record SucursalCreate := mkSucursalCreate {
  sc_nombre : string;
  sc_direccion : string;
  sc_telefono : option string;
  sc_estado : option bool;
  sc_almacen_id : option Z
}.

(** A field of an update body is unset ([None]), set to null ([Some None]) or
    set to a value: [model_dump(exclude_unset=True)] keeps the last two. *)
Record SucursalUpdate := mkSucursalUpdate {
  su_nombre : option (option string);
  su_direccion : option (option string);
  su_telefono : option (option string);
  su_estado : option (option bool)
}.

Record SucursalResponse := mkSucursalResponse {
  sr_nombre : string;
  sr_direccion : string;
  sr_telefono : option string;
  sr_estado : option bool;
  sr_id_sucursal : Z;
  sr_fecha_creacion : Z
}.

Record AlmacenCreate := mkAlmacenCreate {
  ac_nombre : string;
  ac_descripcion : option string;
  ac_es_principal : bool;
  ac_estado : option bool;
  ac_sucursal_id : Z
}.

Record AlmacenUpdate := mkAlmacenUpdate {
  au_nombre : option (option string);
  au_descripcion : option (option string);
  au_es_principal : option (option bool);
  au_estado : option (option bool)
}.

Record AlmacenResponse := mkAlmacenResponse {
  ar_nombre : string;
  ar_descripcion : option string;
  ar_es_principal : bool;
  ar_estado : option bool;
  ar_id_almacen : Z;
  ar_fecha_creacion : Z
}.

Record SucursalAlmacenCreate := mkSucursalAlmacenCreate { sac_sucursal_id : Z }.

Record SucursalAlmacenResponse := mkSucursalAlmacenResponse {
  sar_sucursales_id_sucursal : Z;
  sar_almacenes_id_almacen : Z
}.

(** The schema declares [usuario_id] and nothing else. *)
Record UsuarioSucursalCreate := mkUsuarioSucursalCreate { usc_usuario_id : Z }.

Record UsuarioEnSucursalResponse := mkUsuarioEnSucursalResponse {
  uer_id_usuario : Z;
  uer_nombre : string;
  uer_apellido : string;
  uer_email : string;
  uer_es_dueno : bool;
  uer_estado : bool;
  uer_fecha_creacion : Z
}.

Record UsuarioSucursalResponse := mkUsuarioSucursalResponse {
  usr_usuarios_id_usuario : Z;
  usr_sucursales_id_sucursal : Z
}.

(** ** Errors and the handler monad *)

Inductive Error :=
  | HTTPException (status_code : Z) (detail : string)
  | IntegrityError      (* raised by a flush that violates a constraint *)
  | AttributeError      (* raised by reading an attribute the object lacks *)
  | ValidationError.    (* raised by a response model given a value it refuses *)

(** The status the caller sees: an exception that is not an [HTTPException]
    surfaces as 500. *)
Definition status_of (e : Error) : Z :=
  match e with
  | HTTPException c _ => c
  | IntegrityError | AttributeError | ValidationError => 500
  end.

Definition HTTP_400_BAD_REQUEST : Z := 400.
Definition HTTP_403_FORBIDDEN : Z := 403.
Definition HTTP_404_NOT_FOUND : Z := 404.

Inductive Result (A : Type) :=
  | Ok (a : A)
  | Raise (e : Error).
Arguments Ok {A} a.
Arguments Raise {A} e.

Definition M (A : Type) : Type := Store → Result A * Store.

Definition raise {A} (e : Error) : M A := λ st, (Raise e, st).
Definition get_store : M Store := λ st, (Ok st, st).

#[global] Instance M_ret : MRet M := λ A a st, (Ok a, st).
#[global] Instance M_bind : MBind M := λ A B k m st,
  match m st with
  | (Ok a, st') => k a st'
  | (Raise e, st') => (Raise e, st')
  end.
#[global] Instance M_fmap : FMap M := λ A B f m, a ← m; mret (f a).

(** ** The session: queries and flushes *)

(** [select(Sucursal).where(id_sucursal == id, empresas_id_empresa == e)]
    followed by [scalar_one_or_none()]: the key selects at most one row. *)
Definition select_sucursal (id e : Z) : M (option Sucursal) :=
  λ st, (Ok (match sucursales st !! id with
             | Some s => if decide (s_empresas_id_empresa s = e) then Some s else None
             | None => None
             end), st).

Definition select_almacen (id e : Z) : M (option Almacen) :=
  λ st, (Ok (match almacenes st !! id with
             | Some a => if decide (a_empresas_id_empresa a = e) then Some a else None
             | None => None
             end), st).

(** [SELECT id_usuario FROM usuarios WHERE id_usuario = :id_usuario AND
    empresas_id_empresa = :id_empresa], then [fetchone()]. *)
Definition select_usuario (id e : Z) : M (option Z) :=
  λ st, (Ok (match usuarios st !! id with
             | Some u => if decide (u_empresas_id_empresa u = e) then Some id else None
             | None => None
             end), st).

(** The key the database gives to a new row of an integer-keyed table: one
    more than the largest key in use, starting at 1. *)
Definition autoincrement {A} (t : gmap Z A) : Z :=
  1 + foldr Z.max 0 (map_to_list t).*1.

(** [db.add(row)], [flush] and [refresh] of a new entity: the row is stored
    under a new key and read back. *)
Definition add_sucursal (s : Sucursal) : M (Z * Sucursal) :=
  λ st, let id := autoincrement (sucursales st) in
        (Ok (id, s),
         mkStore (<[id := s]> (sucursales st)) (almacenes st)
                 (sucursales_almacenes st) (usuarios st) (usuarios_sucursales st)).

Definition add_almacen (a : Almacen) : M (Z * Almacen) :=
  λ st, let id := autoincrement (almacenes st) in
        (Ok (id, a),
         mkStore (sucursales st) (<[id := a]> (almacenes st))
                 (sucursales_almacenes st) (usuarios st) (usuarios_sucursales st)).

(** Flush of a changed entity: [UPDATE ... WHERE id = :id], read back by
    [refresh]. *)
Definition flush_sucursal (id : Z) (s : Sucursal) : M unit :=
  λ st, (Ok tt,
         mkStore (<[id := s]> (sucursales st)) (almacenes st)
                 (sucursales_almacenes st) (usuarios st) (usuarios_sucursales st)).

Definition flush_almacen (id : Z) (a : Almacen) : M unit :=
  λ st, (Ok tt,
         mkStore (sucursales st) (<[id := a]> (almacenes st))
                 (sucursales_almacenes st) (usuarios st) (usuarios_sucursales st)).

(** [db.add(SucursalAlmacen(...))] and [flush]: the insert violates the
    composite primary key when the pair is present, and a foreign key when
    the branch or the warehouse is not. *)
Definition add_sucursal_almacen (sucursal_id almacen_id : Z) : M unit :=
  λ st, if decide ((sucursal_id, almacen_id) ∈ sucursales_almacenes st) then
          (Raise IntegrityError, st)
        else if decide (is_Some (sucursales st !! sucursal_id)
                        ∧ is_Some (almacenes st !! almacen_id)) then
          (Ok tt,
           mkStore (sucursales st) (almacenes st)
                   ({[ (sucursal_id, almacen_id) ]} ∪ sucursales_almacenes st)
                   (usuarios st) (usuarios_sucursales st))
        else (Raise IntegrityError, st).

(** [db.add(UsuarioSucursal(...))] and [flush]: only [sucursales_id_sucursal]
    is declared a foreign key. *)
Definition add_usuario_sucursal (usuario_id sucursal_id : Z) : M unit :=
  λ st, if decide ((usuario_id, sucursal_id) ∈ usuarios_sucursales st) then
          (Raise IntegrityError, st)
        else if decide (is_Some (sucursales st !! sucursal_id)) then
          (Ok tt,
           mkStore (sucursales st) (almacenes st) (sucursales_almacenes st)
                   (usuarios st)
                   ({[ (usuario_id, sucursal_id) ]} ∪ usuarios_sucursales st))
        else (Raise IntegrityError, st).

(** [select(SucursalAlmacen).where(...)] with [scalar_one_or_none()]. *)
Definition select_sucursal_almacen (sucursal_id almacen_id : Z) : M (option (Z * Z)) :=
  λ st, (Ok (if decide ((sucursal_id, almacen_id) ∈ sucursales_almacenes st)
             then Some (sucursal_id, almacen_id) else None), st).

Definition select_usuario_sucursal (usuario_id sucursal_id : Z) : M (option (Z * Z)) :=
  λ st, (Ok (if decide ((usuario_id, sucursal_id) ∈ usuarios_sucursales st)
             then Some (usuario_id, sucursal_id) else None), st).

(** [db.delete(row)] of a link row. *)
Definition delete_sucursal_almacen (vinculo : Z * Z) : M unit :=
  λ st, (Ok tt,
         mkStore (sucursales st) (almacenes st)
                 (sucursales_almacenes st ∖ {[ vinculo ]})
                 (usuarios st) (usuarios_sucursales st)).

Definition delete_usuario_sucursal (asign : Z * Z) : M unit :=
  λ st, (Ok tt,
         mkStore (sucursales st) (almacenes st) (sucursales_almacenes st)
                 (usuarios st) (usuarios_sucursales st ∖ {[ asign ]})).

(** [ORDER BY] the key column of the joined table. *)
Definition by_key {A} : relation (Z * A) := λ x y, x.1 ≤ y.1.

#[global] Instance by_key_dec {A} : RelDecision (@by_key A) :=
  λ x y, decide (x.1 ≤ y.1).

Definition order_by_key {A} (rows : list (Z * A)) : list (Z * A) :=
  merge_sort by_key rows.

(** ** Response models: [model_validate] of a stored row *)

Definition SucursalResponse_of (id : Z) (s : Sucursal) : SucursalResponse :=
  {| sr_nombre := s_nombre s;
     sr_direccion := s_direccion s;
     sr_telefono := s_telefono s;
     sr_estado := Some (s_estado s);
     sr_id_sucursal := id;
     sr_fecha_creacion := s_fecha_creacion s |}.

Definition AlmacenResponse_of (id : Z) (a : Almacen) : AlmacenResponse :=
  {| ar_nombre := a_nombre a;
     ar_descripcion := a_descripcion a;
     ar_es_principal := a_es_principal a;
     ar_estado := Some (a_estado a);
     ar_id_almacen := id;
     ar_fecha_creacion := a_fecha_creacion a |}.

(** [UsuarioEnSucursalResponse(...)] built from a joined row.  The model
    validates what it is given: every field is required and not null, and
    [email] is an [EmailStr], which refuses a text that is no e-mail address
    and keeps the normalised address of one it accepts.  [EmailStr] is
    pydantic's and is a parameter here: [None] when it refuses.  The result
    is [None] when the constructor raises. *)
Definition UsuarioEnSucursalResponse_of (EmailStr : string → option string)
    (id : Z) (u : Usuario) : option UsuarioEnSucursalResponse :=
  nombre ← u_nombre u;
  apellido ← u_apellido u;
  email ← u_email u ≫= EmailStr;
  es_dueno ← u_es_dueno u;
  estado ← u_estado u;
  fecha_creacion ← u_fecha_creacion u;
  Some {| uer_id_usuario := id;
          uer_nombre := nombre;
          uer_apellido := apellido;
          uer_email := email;
          uer_es_dueno := es_dueno;
          uer_estado := estado;
          uer_fecha_creacion := fecha_creacion |}.

(** [setattr(obj, field, value)] for each field of
    [model_dump(exclude_unset=True)]: an unset field leaves the attribute, a
    set one replaces it, null included. *)
Definition setattr {A} (current : option A) (field : option (option A)) : option A :=
  match field with
  | None => current
  | Some value => value
  end.

(** ** Handlers of [app/routers/sucursales.py] *)

Definition list_almacenes_de_sucursal (sucursal_id : Z) (current_user : CurrentUser)
  : M (list AlmacenResponse) :=
  sucursal ← select_sucursal sucursal_id (id_empresa (empresa current_user));
  match sucursal with
  | None => raise (HTTPException HTTP_404_NOT_FOUND "Branch not found in your company")
  | Some _ =>
    st ← get_store;
    let rows :=
      sa ← elements (sucursales_almacenes st);
      match almacenes st !! sa.2 with
      | Some a =>
        if decide (sa.1 = sucursal_id
                   ∧ a_empresas_id_empresa a = id_empresa (empresa current_user))
        then [(sa.2, a)] else []
      | None => []
      end in
    mret ((λ r, AlmacenResponse_of r.1 r.2) <$> order_by_key rows)
  end.

(** The [Sucursal(...)] object that [create_sucursal] builds; the column
    default fills [fecha_creacion] at the insert. *)
Definition new_sucursal (sucursal_create : SucursalCreate)
    (current_user : CurrentUser) (now : Z) : Sucursal :=
  {| s_nombre := sc_nombre sucursal_create;
     s_direccion := sc_direccion sucursal_create;
     s_telefono := sc_telefono sucursal_create;
     s_estado := match sc_estado sucursal_create with
                 | Some estado => estado
                 | None => true
                 end;
     s_fecha_creacion := now;
     s_empresas_id_empresa := id_empresa (empresa current_user) |}.

Definition create_sucursal (sucursal_create : SucursalCreate)
    (current_user : CurrentUser) (now : Z) : M SucursalResponse :=
  stored ← add_sucursal (new_sucursal sucursal_create current_user now);
  mret (SucursalResponse_of stored.1 stored.2).

Definition list_sucursales (current_user : CurrentUser) : M (list SucursalResponse) :=
  st ← get_store;
  let rows :=
    filter (λ r, s_empresas_id_empresa r.2 = id_empresa (empresa current_user))
           (map_to_list (sucursales st)) in
  mret ((λ r, SucursalResponse_of r.1 r.2) <$> rows).

Definition get_sucursal (sucursal_id : Z) (current_user : CurrentUser)
  : M SucursalResponse :=
  sucursal ← select_sucursal sucursal_id (id_empresa (empresa current_user));
  match sucursal with
  | None => raise (HTTPException HTTP_404_NOT_FOUND "Branch not found")
  | Some s => mret (SucursalResponse_of sucursal_id s)
  end.

(** The first of the two functions that [sucursales.py] registers for
    [POST /{sucursal_id}/usuarios] (lines 162-228). *)
Definition assign_usuario_to_sucursal (sucursal_id : Z)
    (payload : UsuarioSucursalCreate) (current_user : CurrentUser)
  : M UsuarioSucursalResponse :=
  sucursal ← select_sucursal sucursal_id (id_empresa (empresa current_user));
  match sucursal with
  | None => raise (HTTPException HTTP_400_BAD_REQUEST
                     "Sucursal does not belong to your company or does not exist")
  | Some _ =>
    user_row ← select_usuario (usc_usuario_id payload) (id_empresa (empresa current_user));
    match user_row with
    | None => raise (HTTPException HTTP_400_BAD_REQUEST
                       "User does not belong to your company or does not exist")
    | Some _ =>
      add_usuario_sucursal (usc_usuario_id payload) sucursal_id;;
      mret {| usr_usuarios_id_usuario := usc_usuario_id payload;
              usr_sucursales_id_sucursal := sucursal_id |}
    end
  end.

(** Reading [payload.sucursales_id_sucursal] or [payload.usuarios_id_usuario]:
    [UsuarioSucursalCreate] declares neither, so the read raises. *)
Definition payload_sucursales_id_sucursal (payload : UsuarioSucursalCreate) : M Z :=
  raise AttributeError.
Definition payload_usuarios_id_usuario (payload : UsuarioSucursalCreate) : M Z :=
  raise AttributeError.

(** The second function registered for the same route (lines 366-435). *)
Definition assign_usuario_to_sucursal_2 (sucursal_id : Z)
    (payload : UsuarioSucursalCreate) (current_user : CurrentUser)
  : M UsuarioSucursalResponse :=
  body_sucursal ← payload_sucursales_id_sucursal payload;
  if decide (body_sucursal ≠ sucursal_id) then
    raise (HTTPException HTTP_400_BAD_REQUEST
             "sucursales_id_sucursal must match path parameter")
  else
    sucursal ← select_sucursal sucursal_id (id_empresa (empresa current_user));
    match sucursal with
    | None => raise (HTTPException HTTP_400_BAD_REQUEST
                       "Sucursal does not belong to your company or does not exist")
    | Some _ =>
      usuario_id ← payload_usuarios_id_usuario payload;
      user_row ← select_usuario usuario_id (id_empresa (empresa current_user));
      match user_row with
      | None => raise (HTTPException HTTP_400_BAD_REQUEST
                         "User does not belong to your company or does not exist")
      | Some _ =>
        usuario_id' ← payload_usuarios_id_usuario payload;
        add_usuario_sucursal usuario_id' sucursal_id;;
        usuario_id'' ← payload_usuarios_id_usuario payload;
        mret {| usr_usuarios_id_usuario := usuario_id'';
                usr_sucursales_id_sucursal := sucursal_id |}
      end
    end.

(** The row that [flush] writes after the [setattr] loop of an update, or
    [None] when a column declared [nullable=False] was set to null. *)
Definition updated_sucursal (sucursal : Sucursal) (sucursal_update : SucursalUpdate)
  : option Sucursal :=
  match setattr (Some (s_nombre sucursal)) (su_nombre sucursal_update),
        setattr (Some (s_direccion sucursal)) (su_direccion sucursal_update),
        setattr (Some (s_estado sucursal)) (su_estado sucursal_update) with
  | Some nombre, Some direccion, Some estado =>
    Some {| s_nombre := nombre;
            s_direccion := direccion;
            s_telefono := setattr (s_telefono sucursal) (su_telefono sucursal_update);
            s_estado := estado;
            s_fecha_creacion := s_fecha_creacion sucursal;
            s_empresas_id_empresa := s_empresas_id_empresa sucursal |}
  | _, _, _ => None
  end.

Definition update_sucursal (sucursal_id : Z) (sucursal_update : SucursalUpdate)
    (current_user : CurrentUser) : M SucursalResponse :=
  sucursal ← select_sucursal sucursal_id (id_empresa (empresa current_user));
  match sucursal with
  | None => raise (HTTPException HTTP_404_NOT_FOUND "Branch not found")
  | Some s =>
    match updated_sucursal s sucursal_update with
    | None => raise IntegrityError
    | Some s' =>
      flush_sucursal sucursal_id s';;
      mret (SucursalResponse_of sucursal_id s')
    end
  end.

Definition delete_sucursal (sucursal_id : Z) (current_user : CurrentUser) : M unit :=
  sucursal ← select_sucursal sucursal_id (id_empresa (empresa current_user));
  match sucursal with
  | None => raise (HTTPException HTTP_404_NOT_FOUND "Branch not found")
  | Some s =>
    flush_sucursal sucursal_id
      {| s_nombre := s_nombre s;
         s_direccion := s_direccion s;
         s_telefono := s_telefono s;
         s_estado := false;
         s_fecha_creacion := s_fecha_creacion s;
         s_empresas_id_empresa := s_empresas_id_empresa s |}
  end.

Definition list_usuarios_de_sucursal (EmailStr : string → option string)
    (sucursal_id : Z) (current_user : CurrentUser)
  : M (list UsuarioEnSucursalResponse) :=
  sucursal ← select_sucursal sucursal_id (id_empresa (empresa current_user));
  match sucursal with
  | None => raise (HTTPException HTTP_404_NOT_FOUND "Branch not found in your company")
  | Some _ =>
    st ← get_store;
    let rows :=
      us ← elements (usuarios_sucursales st);
      match usuarios st !! us.1 with
      | Some u =>
        if decide (us.2 = sucursal_id
                   ∧ u_empresas_id_empresa u = id_empresa (empresa current_user))
        then [(us.1, u)] else []
      | None => []
      end in
    match mapM (λ r, UsuarioEnSucursalResponse_of EmailStr r.1 r.2)
               (order_by_key rows) with
    | Some responses => mret responses
    | None => raise ValidationError
    end
  end.

Definition remove_usuario_from_sucursal (sucursal_id usuario_id : Z)
    (current_user : CurrentUser) : M unit :=
  sucursal ← select_sucursal sucursal_id (id_empresa (empresa current_user));
  match sucursal with
  | None => raise (HTTPException HTTP_404_NOT_FOUND "Branch not found in your company")
  | Some _ =>
    asign ← select_usuario_sucursal usuario_id sucursal_id;
    match asign with
    | None => raise (HTTPException HTTP_404_NOT_FOUND "Assignment not found")
    | Some asign => delete_usuario_sucursal asign
    end
  end.

(** ** Handlers of [app/routers/almacenes.py] *)

Definition list_almacenes (current_user : CurrentUser) : M (list AlmacenResponse) :=
  st ← get_store;
  let rows :=
    filter (λ r, a_empresas_id_empresa r.2 = id_empresa (empresa current_user))
           (map_to_list (almacenes st)) in
  mret ((λ r, AlmacenResponse_of r.1 r.2) <$> rows).

Definition get_almacen (almacen_id : Z) (current_user : CurrentUser)
  : M AlmacenResponse :=
  almacen ← select_almacen almacen_id (id_empresa (empresa current_user));
  match almacen with
  | None => raise (HTTPException HTTP_404_NOT_FOUND "Warehouse not found")
  | Some a => mret (AlmacenResponse_of almacen_id a)
  end.

(** The [Almacen(...)] object that [create_almacen] builds. *)
Definition new_almacen (almacen_create : AlmacenCreate)
    (current_user : CurrentUser) (now : Z) : Almacen :=
  {| a_nombre := ac_nombre almacen_create;
     a_descripcion := ac_descripcion almacen_create;
     a_es_principal := ac_es_principal almacen_create;
     a_estado := match ac_estado almacen_create with
                 | Some estado => estado
                 | None => true
                 end;
     a_fecha_creacion := now;
     a_empresas_id_empresa := id_empresa (empresa current_user) |}.

Definition create_almacen (almacen_create : AlmacenCreate)
    (current_user : CurrentUser) (now : Z) : M AlmacenResponse :=
  sucursal ← select_sucursal (ac_sucursal_id almacen_create)
                             (id_empresa (empresa current_user));
  match sucursal with
  | None => raise (HTTPException HTTP_400_BAD_REQUEST
                     "Sucursal does not belong to your company or does not exist")
  | Some _ =>
    stored ← add_almacen (new_almacen almacen_create current_user now);
    add_sucursal_almacen (ac_sucursal_id almacen_create) stored.1;;
    mret (AlmacenResponse_of stored.1 stored.2)
  end.

Definition updated_almacen (almacen : Almacen) (almacen_update : AlmacenUpdate)
  : option Almacen :=
  match setattr (Some (a_nombre almacen)) (au_nombre almacen_update),
        setattr (Some (a_es_principal almacen)) (au_es_principal almacen_update),
        setattr (Some (a_estado almacen)) (au_estado almacen_update) with
  | Some nombre, Some es_principal, Some estado =>
    Some {| a_nombre := nombre;
            a_descripcion := setattr (a_descripcion almacen) (au_descripcion almacen_update);
            a_es_principal := es_principal;
            a_estado := estado;
            a_fecha_creacion := a_fecha_creacion almacen;
            a_empresas_id_empresa := a_empresas_id_empresa almacen |}
  | _, _, _ => None
  end.

Definition update_almacen (almacen_id : Z) (almacen_update : AlmacenUpdate)
    (current_user : CurrentUser) : M AlmacenResponse :=
  almacen ← select_almacen almacen_id (id_empresa (empresa current_user));
  match almacen with
  | None => raise (HTTPException HTTP_404_NOT_FOUND "Warehouse not found")
  | Some a =>
    match updated_almacen a almacen_update with
    | None => raise IntegrityError
    | Some a' =>
      flush_almacen almacen_id a';;
      mret (AlmacenResponse_of almacen_id a')
    end
  end.

Definition delete_almacen (almacen_id : Z) (current_user : CurrentUser) : M unit :=
  almacen ← select_almacen almacen_id (id_empresa (empresa current_user));
  match almacen with
  | None => raise (HTTPException HTTP_404_NOT_FOUND "Warehouse not found")
  | Some a =>
    flush_almacen almacen_id
      {| a_nombre := a_nombre a;
         a_descripcion := a_descripcion a;
         a_es_principal := a_es_principal a;
         a_estado := false;
         a_fecha_creacion := a_fecha_creacion a;
         a_empresas_id_empresa := a_empresas_id_empresa a |}
  end.

Definition list_sucursales_de_almacen (almacen_id : Z) (current_user : CurrentUser)
  : M (list SucursalResponse) :=
  almacen ← select_almacen almacen_id (id_empresa (empresa current_user));
  match almacen with
  | None => raise (HTTPException HTTP_404_NOT_FOUND "Warehouse not found in your company")
  | Some _ =>
    st ← get_store;
    let rows :=
      sa ← elements (sucursales_almacenes st);
      match sucursales st !! sa.1 with
      | Some s =>
        if decide (sa.2 = almacen_id
                   ∧ s_empresas_id_empresa s = id_empresa (empresa current_user))
        then [(sa.1, s)] else []
      | None => []
      end in
    mret ((λ r, SucursalResponse_of r.1 r.2) <$> order_by_key rows)
  end.

Definition link_sucursal_to_almacen (almacen_id : Z) (payload : SucursalAlmacenCreate)
    (current_user : CurrentUser) : M SucursalAlmacenResponse :=
  almacen ← select_almacen almacen_id (id_empresa (empresa current_user));
  match almacen with
  | None => raise (HTTPException HTTP_400_BAD_REQUEST
                     "Almacen does not belong to your company or does not exist")
  | Some _ =>
    sucursal ← select_sucursal (sac_sucursal_id payload)
                               (id_empresa (empresa current_user));
    match sucursal with
    | None => raise (HTTPException HTTP_400_BAD_REQUEST
                       "Sucursal does not belong to your company or does not exist")
    | Some _ =>
      add_sucursal_almacen (sac_sucursal_id payload) almacen_id;;
      mret {| sar_sucursales_id_sucursal := sac_sucursal_id payload;
              sar_almacenes_id_almacen := almacen_id |}
    end
  end.

Definition unlink_sucursal_from_almacen (almacen_id sucursal_id : Z)
    (current_user : CurrentUser) : M unit :=
  almacen ← select_almacen almacen_id (id_empresa (empresa current_user));
  match almacen with
  | None => raise (HTTPException HTTP_404_NOT_FOUND "Warehouse not found in your company")
  | Some _ =>
    vinculo ← select_sucursal_almacen sucursal_id almacen_id;
    match vinculo with
    | None => raise (HTTPException HTTP_404_NOT_FOUND "Link not found")
    | Some vinculo => delete_sucursal_almacen vinculo
    end
  end.

(** ** The exposed operations

    A request names a route with its path parameters and parsed body.  Every
    route depends on [require_permission(action, resource)], which answers
    403 before the handler body runs; the permission engine is not part of
    these routers and is a parameter here. *)

Inductive Request :=
  | ListAlmacenesDeSucursal (sucursal_id : Z)
  | CreateSucursal (body : SucursalCreate) (now : Z)
  | ListSucursales
  | GetSucursal (sucursal_id : Z)
  | AssignUsuarioToSucursal (sucursal_id : Z) (body : UsuarioSucursalCreate)
  | UpdateSucursal (sucursal_id : Z) (body : SucursalUpdate)
  | DeleteSucursal (sucursal_id : Z)
  | ListUsuariosDeSucursal (sucursal_id : Z)
  | RemoveUsuarioFromSucursal (sucursal_id usuario_id : Z)
  | ListAlmacenes
  | GetAlmacen (almacen_id : Z)
  | CreateAlmacen (body : AlmacenCreate) (now : Z)
  | UpdateAlmacen (almacen_id : Z) (body : AlmacenUpdate)
  | DeleteAlmacen (almacen_id : Z)
  | ListSucursalesDeAlmacen (almacen_id : Z)
  | LinkSucursalToAlmacen (almacen_id : Z) (body : SucursalAlmacenCreate)
  | UnlinkSucursalFromAlmacen (almacen_id sucursal_id : Z).

Inductive Response :=
  | RSucursal (r : SucursalResponse)
  | RSucursales (l : list SucursalResponse)
  | RAlmacen (r : AlmacenResponse)
  | RAlmacenes (l : list AlmacenResponse)
  | RUsuarios (l : list UsuarioEnSucursalResponse)
  | RUsuarioSucursal (r : UsuarioSucursalResponse)
  | RSucursalAlmacen (r : SucursalAlmacenResponse)
  | RNoContent.

(** The [(action, resource)] pair of each route's [require_permission]. *)
Definition permission_of (req : Request) : string * string :=
  match req with
  | ListAlmacenesDeSucursal _ => ("read", "sucursales_almacenes")
  | CreateSucursal _ _ => ("create", "sucursales")
  | ListSucursales => ("read", "sucursales")
  | GetSucursal _ => ("read", "sucursales")
  | AssignUsuarioToSucursal _ _ => ("create", "usuarios_sucursales")
  | UpdateSucursal _ _ => ("update", "sucursales")
  | DeleteSucursal _ => ("delete", "sucursales")
  | ListUsuariosDeSucursal _ => ("read", "usuarios_sucursales")
  | RemoveUsuarioFromSucursal _ _ => ("delete", "usuarios_sucursales")
  | ListAlmacenes => ("read", "almacenes")
  | GetAlmacen _ => ("read", "almacenes")
  | CreateAlmacen _ _ => ("create", "almacenes")
  | UpdateAlmacen _ _ => ("update", "almacenes")
  | DeleteAlmacen _ => ("delete", "almacenes")
  | ListSucursalesDeAlmacen _ => ("read", "sucursales_almacenes")
  | LinkSucursalToAlmacen _ _ => ("create", "sucursales_almacenes")
  | UnlinkSucursalFromAlmacen _ _ => ("delete", "sucursales_almacenes")
  end.

(** The handler body of each route.  [POST /{sucursal_id}/usuarios] is served
    by the route registered first. *)
Definition endpoint (EmailStr : string → option string)
    (req : Request) (current_user : CurrentUser) : M Response :=
  match req with
  | ListAlmacenesDeSucursal id => RAlmacenes <$> list_almacenes_de_sucursal id current_user
  | CreateSucursal body now => RSucursal <$> create_sucursal body current_user now
  | ListSucursales => RSucursales <$> list_sucursales current_user
  | GetSucursal id => RSucursal <$> get_sucursal id current_user
  | AssignUsuarioToSucursal id body =>
      RUsuarioSucursal <$> assign_usuario_to_sucursal id body current_user
  | UpdateSucursal id body => RSucursal <$> update_sucursal id body current_user
  | DeleteSucursal id => delete_sucursal id current_user;; mret RNoContent
  | ListUsuariosDeSucursal id =>
      RUsuarios <$> list_usuarios_de_sucursal EmailStr id current_user
  | RemoveUsuarioFromSucursal id usuario_id =>
      remove_usuario_from_sucursal id usuario_id current_user;; mret RNoContent
  | ListAlmacenes => RAlmacenes <$> list_almacenes current_user
  | GetAlmacen id => RAlmacen <$> get_almacen id current_user
  | CreateAlmacen body now => RAlmacen <$> create_almacen body current_user now
  | UpdateAlmacen id body => RAlmacen <$> update_almacen id body current_user
  | DeleteAlmacen id => delete_almacen id current_user;; mret RNoContent
  | ListSucursalesDeAlmacen id => RSucursales <$> list_sucursales_de_almacen id current_user
  | LinkSucursalToAlmacen id body =>
      RSucursalAlmacen <$> link_sucursal_to_almacen id body current_user
  | UnlinkSucursalFromAlmacen id sucursal_id =>
      unlink_sucursal_from_almacen id sucursal_id current_user;; mret RNoContent
  end.

Definition handle (require_permission : CurrentUser → string → string → bool)
    (EmailStr : string → option string)
    (req : Request) (current_user : CurrentUser) : M Response :=
  if require_permission current_user (permission_of req).1 (permission_of req).2
  then endpoint EmailStr req current_user
  else raise (HTTPException HTTP_403_FORBIDDEN "Forbidden").

(** A sequence of requests, each by its own caller, run one after the other
    on the store the previous one left. *)
Fixpoint run (require_permission : CurrentUser → string → string → bool)
    (EmailStr : string → option string)
    (reqs : list (Request * CurrentUser)) (st : Store) : Store :=
  match reqs with
  | [] => st
  | (req, current_user) :: reqs' =>
    run require_permission EmailStr reqs'
      (handle require_permission EmailStr req current_user st).2
  end.

(** ** The request body of [POST /{sucursal_id}/usuarios]

    The body is a JSON object, here with integer values.  The route parses it
    into [UsuarioSucursalCreate]: [usuario_id] is required (422 without it)
    and the schema sets no policy for other keys, so they are dropped. *)

Definition HTTP_422_UNPROCESSABLE_ENTITY : Z := 422.

Definition parse_UsuarioSucursalCreate (body : gmap string Z)
  : option UsuarioSucursalCreate :=
  usuario_id ← body !! "usuario_id";
  Some {| usc_usuario_id := usuario_id |}.

(** The route as a request reaches it: the body is parsed, then the function
    registered first for the path runs. *)
Definition post_sucursal_usuarios (sucursal_id : Z) (body : gmap string Z)
    (current_user : CurrentUser) : M UsuarioSucursalResponse :=
  match parse_UsuarioSucursalCreate body with
  | None => raise (HTTPException HTTP_422_UNPROCESSABLE_ENTITY "Field required")
  | Some payload => assign_usuario_to_sucursal sucursal_id payload current_user
  end.

(** ** Vocabulary of the properties *)

(** A response that is the image of a row of the caller's company. *)
Definition sucursal_of_empresa (st : Store) (e : Z) (r : SucursalResponse) : Prop :=
  ∃ s, sucursales st !! sr_id_sucursal r = Some s
       ∧ s_empresas_id_empresa s = e
       ∧ r = SucursalResponse_of (sr_id_sucursal r) s.

Definition almacen_of_empresa (st : Store) (e : Z) (r : AlmacenResponse) : Prop :=
  ∃ a, almacenes st !! ar_id_almacen r = Some a
       ∧ a_empresas_id_empresa a = e
       ∧ r = AlmacenResponse_of (ar_id_almacen r) a.

(** The entity under [id] exists and belongs to company [e]. *)
Definition sucursal_en_empresa (st : Store) (e id : Z) : Prop :=
  ∃ s, sucursales st !! id = Some s ∧ s_empresas_id_empresa s = e.

Definition almacen_en_empresa (st : Store) (e id : Z) : Prop :=
  ∃ a, almacenes st !! id = Some a ∧ a_empresas_id_empresa a = e.

(** Every link row connects a branch and a warehouse of one company. *)
Definition links_same_company (st : Store) : Prop :=
  ∀ s a, (s, a) ∈ sucursales_almacenes st →
    ∃ rs ra, sucursales st !! s = Some rs ∧ almacenes st !! a = Some ra
             ∧ s_empresas_id_empresa rs = a_empresas_id_empresa ra.

(** A partial update whose body sets [estado] to true. *)
Definition sets_estado_true (req : Request) : bool :=
  match req with
  | UpdateSucursal _ body => bool_decide (su_estado body = Some (Some true))
  | UpdateAlmacen _ body => bool_decide (au_estado body = Some (Some true))
  | _ => false
  end.


(** [SucursalCreate] with its [almacen_id] replaced. *)
Definition with_almacen_id (almacen_id : option Z) (sc : SucursalCreate)
  : SucursalCreate :=
  {| sc_nombre := sc_nombre sc;
     sc_direccion := sc_direccion sc;
     sc_telefono := sc_telefono sc;
     sc_estado := sc_estado sc;
     sc_almacen_id := almacen_id |}.

(** ** Sample data *)

Module Sample.

Definition empresa_1 : CurrentUser := {| empresa := {| id_empresa := 1 |} |}.
Definition empresa_2 : CurrentUser := {| empresa := {| id_empresa := 2 |} |}.

Definition permit_all : CurrentUser → string → string → bool := λ _ _ _, true.

Definition centro : Sucursal :=
  {| s_nombre := "Centro"; s_direccion := "Av. Heroinas 12";
     s_telefono := Some "4440000"; s_estado := true;
     s_fecha_creacion := 1700000000; s_empresas_id_empresa := 1 |}.

Definition cerrada : Sucursal :=
  {| s_nombre := "Norte"; s_direccion := "Av. America 7";
     s_telefono := None; s_estado := false;
     s_fecha_creacion := 1700000100; s_empresas_id_empresa := 1 |}.

Definition ajena : Sucursal :=
  {| s_nombre := "Sur"; s_direccion := "Calle 9";
     s_telefono := None; s_estado := true;
     s_fecha_creacion := 1700000200; s_empresas_id_empresa := 2 |}.

Definition deposito : Almacen :=
  {| a_nombre := "Deposito"; a_descripcion := None; a_es_principal := true;
     a_estado := true; a_fecha_creacion := 1700000300;
     a_empresas_id_empresa := 1 |}.

Definition empleado : Usuario :=
  {| u_nombre := Some "Ana"; u_apellido := Some "Rojas";
     u_email := Some "ana@example.com";
     u_es_dueno := Some false; u_estado := Some true;
     u_fecha_creacion := Some 1700000400;
     u_empresas_id_empresa := 1 |}.

(** A user whose stored e-mail is no address. *)
Definition sin_correo : Usuario :=
  {| u_nombre := Some "Luis"; u_apellido := Some "Paz";
     u_email := Some "luis";
     u_es_dueno := Some false; u_estado := Some true;
     u_fecha_creacion := Some 1700000500;
     u_empresas_id_empresa := 1 |}.

(** A stand-in for [EmailStr]: a text with an [@] is accepted as it is. *)
Definition email_str (s : string) : option string :=
  if String.index 0%nat "@" s is Some _ then Some s else None.

(** Branches 1 and 2 of company 1 (2 is inactive), branch 3 of company 2,
    warehouse 1 of company 1 linked to branch 2, user 7 of company 1. *)
Definition store : Store :=
  {| sucursales := {[ 1 := centro; 2 := cerrada; 3 := ajena ]};
     almacenes := {[ 1 := deposito ]};
     sucursales_almacenes := {[ (2, 1) ]};
     usuarios := {[ 7 := empleado ]};
     usuarios_sucursales := ∅ |}.

(** The same store with user 8, whose e-mail is no address, and both users
    assigned to branch 1. *)
Definition store_sin_correo : Store :=
  {| sucursales := sucursales store;
     almacenes := almacenes store;
     sucursales_almacenes := sucursales_almacenes store;
     usuarios := {[ 7 := empleado; 8 := sin_correo ]};
     usuarios_sucursales := {[ (7, 1); (8, 1) ]} |}.

Definition nuevo_almacen (sucursal_id : Z) : AlmacenCreate :=
  {| ac_nombre := "Anexo"; ac_descripcion := Some "planta baja";
     ac_es_principal := false; ac_estado := None;
     ac_sucursal_id := sucursal_id |}.

Definition nueva_sucursal : SucursalCreate :=
  {| sc_nombre := "Este"; sc_direccion := "Av. Villazon km 4";
     sc_telefono := None; sc_estado := None; sc_almacen_id := Some 1 |}.



Definition renombrar : SucursalUpdate :=
  {| su_nombre := Some (Some "Centro 2"); su_direccion := None;
     su_telefono := None; su_estado := None |}.


(** A body that names branch 2 next to the user. *)
Definition body_otra_sucursal : gmap string Z :=
  {[ "usuario_id" := 7; "sucursales_id_sucursal" := 2 ]}.

End Sample.

(** ** Vocabulary of the further properties *)

Definition usuario_en_empresa (st : Store) (e id : Z) : Prop :=
  ∃ u, usuarios st !! id = Some u ∧ u_empresas_id_empresa u = e.

(** The users of company [e] that an assignment row connects to branch
    [sucursal_id]: the rows the users listing joins. *)
Definition usuario_asignado (st : Store) (e sucursal_id id : Z) (u : Usuario) : Prop :=
  usuarios st !! id = Some u
  ∧ u_empresas_id_empresa u = e
  ∧ (id, sucursal_id) ∈ usuarios_sucursales st.

(** The shape the three join listings share: each link row [sa] is joined
    with the row of table [t] under [key sa], and kept when its other column
    is [x] and the joined row satisfies [P]. *)
Definition join_rows {A} (t : gmap Z A) (key other : Z * Z → Z) (x : Z)
    (P : A → Prop) `{!∀ a, Decision (P a)} (links : list (Z * Z)) : list (Z * A) :=
  sa ← links;
  match t !! key sa with
  | Some a => if decide (other sa = x ∧ P a) then [(key sa, a)] else []
  | None => []
  end.

(** The routes registered with [router.get]. *)
Definition is_get (req : Request) : bool :=
  match req with
  | ListAlmacenesDeSucursal _ | ListSucursales | GetSucursal _
  | ListUsuariosDeSucursal _ | ListAlmacenes | GetAlmacen _
  | ListSucursalesDeAlmacen _ => true
  | _ => false
  end.

(** The body [{}] of a PATCH: no field is set. *)
Definition SucursalUpdate_unset : SucursalUpdate :=
  {| su_nombre := None; su_direccion := None; su_telefono := None;
     su_estado := None |}.

Definition AlmacenUpdate_unset : AlmacenUpdate :=
  {| au_nombre := None; au_descripcion := None; au_es_principal := None;
     au_estado := None |}.

(** The store with one column replaced. *)
Definition with_sucursales_almacenes (links : gset (Z * Z)) (st : Store) : Store :=
  mkStore (sucursales st) (almacenes st) links (usuarios st) (usuarios_sucursales st).

Definition with_usuarios_sucursales (asigns : gset (Z * Z)) (st : Store) : Store :=
  mkStore (sucursales st) (almacenes st) (sucursales_almacenes st) (usuarios st) asigns.

(** * Properties *)

(** Unfolds the monad of a handler body down to matches on the store. *)
Ltac unfold_M :=
  unfold fmap, M_fmap, mbind, M_bind, mret, M_ret, raise, get_store,
    select_sucursal, select_almacen, select_usuario, select_sucursal_almacen,
    select_usuario_sucursal, add_sucursal, add_almacen, flush_sucursal,
    flush_almacen, add_sucursal_almacen, add_usuario_sucursal,
    delete_sucursal_almacen, delete_usuario_sucursal in *.

(** ** The key given to a new row is not in use *)

Lemma foldr_max_ge (l : list Z) (k : Z) : k ∈ l → k ≤ foldr Z.max 0 l.
Proof.
  induction l as [|x l IH]; intros Hk.
  - by apply not_elem_of_nil in Hk.
  - apply elem_of_cons in Hk as [->|Hk]; simpl; [lia|].
    specialize (IH Hk). lia.
Qed.

Lemma autoincrement_gt {A} (t : gmap Z A) (k : Z) (x : A) :
  t !! k = Some x → k < autoincrement t.
Proof.
  intros Hk. unfold autoincrement.
  assert (k ∈ (map_to_list t).*1) as Hin.
  { apply list_elem_of_fmap. exists (k, x). split; [done|].
    by apply elem_of_map_to_list. }
  apply foldr_max_ge in Hin. lia.
Qed.

Lemma autoincrement_fresh {A} (t : gmap Z A) : t !! autoincrement t = None.
Proof.
  destruct (t !! autoincrement t) as [x|] eqn:E; [|done].
  apply autoincrement_gt in E. lia.
Qed.

(** ** Listings *)

Lemma Forall_order_by_key {A} (P : Z * A → Prop) (rows : list (Z * A)) :
  Forall P rows → Forall P (order_by_key rows).
Proof.
  intros H. unfold order_by_key.
  by rewrite merge_sort_Permutation.
Qed.

Lemma list_sucursales_spec (cu : CurrentUser) (st : Store) :
  ∃ l, list_sucursales cu st = (Ok l, st)
       ∧ Forall (sucursal_of_empresa st (id_empresa (empresa cu))) l.
Proof.
  unfold list_sucursales. unfold_M. eexists; split; [reflexivity|].
  apply Forall_fmap, Forall_forall. intros [id s] Hin.
  apply list_elem_of_filter in Hin as [He Hin]. simpl in He.
  apply elem_of_map_to_list in Hin.
  exists s. simpl. done.
Qed.

Lemma list_almacenes_spec (cu : CurrentUser) (st : Store) :
  ∃ l, list_almacenes cu st = (Ok l, st)
       ∧ Forall (almacen_of_empresa st (id_empresa (empresa cu))) l.
Proof.
  unfold list_almacenes. unfold_M. eexists; split; [reflexivity|].
  apply Forall_fmap, Forall_forall. intros [id a] Hin.
  apply list_elem_of_filter in Hin as [He Hin]. simpl in He.
  apply elem_of_map_to_list in Hin.
  exists a. simpl. done.
Qed.

Lemma list_almacenes_de_sucursal_spec (sucursal_id : Z) (cu : CurrentUser) (st : Store) :
  (list_almacenes_de_sucursal sucursal_id cu st).2 = st
  ∧ match (list_almacenes_de_sucursal sucursal_id cu st).1 with
    | Ok l => Forall (almacen_of_empresa st (id_empresa (empresa cu))) l
    | Raise e => status_of e = HTTP_404_NOT_FOUND
    end.
Proof.
  unfold list_almacenes_de_sucursal. unfold_M.
  destruct (sucursales st !! sucursal_id) as [s|]; simpl; [|done].
  case_decide; simpl; [|done].
  split; [done|].
  apply Forall_fmap, Forall_order_by_key, Forall_bind, Forall_forall.
  intros [sid aid] _. simpl.
  destruct (almacenes st !! aid) as [a|] eqn:Ea; [|constructor].
  case_decide as Hc; [|constructor].
  destruct Hc as [-> Hc]. repeat constructor.
  exists a. simpl. done.
Qed.

Lemma list_sucursales_de_almacen_spec (almacen_id : Z) (cu : CurrentUser) (st : Store) :
  (list_sucursales_de_almacen almacen_id cu st).2 = st
  ∧ match (list_sucursales_de_almacen almacen_id cu st).1 with
    | Ok l => Forall (sucursal_of_empresa st (id_empresa (empresa cu))) l
    | Raise e => status_of e = HTTP_404_NOT_FOUND
    end.
Proof.
  unfold list_sucursales_de_almacen. unfold_M.
  destruct (almacenes st !! almacen_id) as [a|]; simpl; [|done].
  case_decide; simpl; [|done].
  split; [done|].
  apply Forall_fmap, Forall_order_by_key, Forall_bind, Forall_forall.
  intros [sid aid] _. simpl.
  destruct (sucursales st !! sid) as [s|] eqn:Es; [|constructor].
  case_decide as Hc; [|constructor].
  destruct Hc as [-> Hc]. repeat constructor.
  exists s. simpl. done.
Qed.

(** C1. Tenant isolation of listings: for every caller and every store, each
    of the four listings (branches, warehouses, warehouses of a branch,
    branches of a warehouse) leaves the store as it is and answers only with
    images of rows whose [empresas_id_empresa] is the caller's company; the
    two join listings answer 404 instead when the path entity is not the
    caller's. *)
Theorem listings_tenant_isolation (cu : CurrentUser) (st : Store) :
  (∃ l, list_sucursales cu st = (Ok l, st)
        ∧ Forall (sucursal_of_empresa st (id_empresa (empresa cu))) l)
  ∧ (∃ l, list_almacenes cu st = (Ok l, st)
          ∧ Forall (almacen_of_empresa st (id_empresa (empresa cu))) l)
  ∧ (∀ sucursal_id,
       (list_almacenes_de_sucursal sucursal_id cu st).2 = st
       ∧ match (list_almacenes_de_sucursal sucursal_id cu st).1 with
         | Ok l => Forall (almacen_of_empresa st (id_empresa (empresa cu))) l
         | Raise e => status_of e = HTTP_404_NOT_FOUND
         end)
  ∧ (∀ almacen_id,
       (list_sucursales_de_almacen almacen_id cu st).2 = st
       ∧ match (list_sucursales_de_almacen almacen_id cu st).1 with
         | Ok l => Forall (sucursal_of_empresa st (id_empresa (empresa cu))) l
         | Raise e => status_of e = HTTP_404_NOT_FOUND
         end).
Proof.
  split; [apply list_sucursales_spec|].
  split; [apply list_almacenes_spec|].
  split; intros id.
  - apply list_almacenes_de_sucursal_spec.
  - apply list_sucursales_de_almacen_spec.
Qed.

(** ** Creating a warehouse *)

(** C2. Create-warehouse failure atomicity: when [sucursal_id] names no
    branch of the caller's company (no such branch, or a branch of another
    company), [create_almacen] raises the 400 error and the store is the one
    it started from: no warehouse row and no link row is written. *)
Theorem create_almacen_rejects_foreign_sucursal
    (almacen_create : AlmacenCreate) (cu : CurrentUser) (now : Z) (st : Store) :
  ¬ sucursal_en_empresa st (id_empresa (empresa cu)) (ac_sucursal_id almacen_create) →
  create_almacen almacen_create cu now st =
    (Raise (HTTPException HTTP_400_BAD_REQUEST
              "Sucursal does not belong to your company or does not exist"), st).
Proof.
  intros Hno. unfold create_almacen. unfold_M.
  destruct (sucursales st !! ac_sucursal_id almacen_create) as [s|] eqn:Es; [|done].
  case_decide as He; [|done].
  destruct Hno. by exists s.
Qed.

Lemma create_almacen_rejects_foreign_sucursal_witness :
  (¬ sucursal_en_empresa Sample.store 1 3)
  ∧ (¬ sucursal_en_empresa Sample.store 1 9)
  ∧ create_almacen (Sample.nuevo_almacen 3) Sample.empresa_1 1700001000 Sample.store =
      (Raise (HTTPException 400
                "Sucursal does not belong to your company or does not exist"),
       Sample.store)
  ∧ create_almacen (Sample.nuevo_almacen 9) Sample.empresa_1 1700001000 Sample.store =
      (Raise (HTTPException 400
                "Sucursal does not belong to your company or does not exist"),
       Sample.store).
Proof.
  assert (¬ sucursal_en_empresa Sample.store 1 3) as H3.
  { intros [s [Hs He]]. vm_compute in Hs. injection Hs as <-. discriminate He. }
  assert (¬ sucursal_en_empresa Sample.store 1 9) as H9.
  { intros [s [Hs He]]. vm_compute in Hs. discriminate Hs. }
  split; [exact H3|]. split; [exact H9|]. split.
  - exact (create_almacen_rejects_foreign_sucursal
             (Sample.nuevo_almacen 3) Sample.empresa_1 1700001000 Sample.store H3).
  - exact (create_almacen_rejects_foreign_sucursal
             (Sample.nuevo_almacen 9) Sample.empresa_1 1700001000 Sample.store H9).
Defined.

(** ** Creating a branch *)

(** C3. Create-branch ignores [almacen_id]: whatever [almacen_id] the body
    carries, [create_sucursal] answers and leaves the store exactly as it
    does without one; it succeeds, stores one new branch row under a key
    that was free, answers with the image of that row, and leaves every
    other branch row, the warehouses, the branch-warehouse links, the users
    and the assignments as they were. *)
Theorem create_sucursal_ignores_almacen_id
    (sucursal_create : SucursalCreate) (almacen_id : option Z)
    (cu : CurrentUser) (now : Z) (st : Store) :
  create_sucursal (with_almacen_id almacen_id sucursal_create) cu now st
    = create_sucursal (with_almacen_id None sucursal_create) cu now st
  ∧ ∃ id st',
      create_sucursal (with_almacen_id almacen_id sucursal_create) cu now st
        = (Ok (SucursalResponse_of id (new_sucursal sucursal_create cu now)), st')
      ∧ sucursales st !! id = None
      ∧ sucursales st' = <[id := new_sucursal sucursal_create cu now]> (sucursales st)
      ∧ almacenes st' = almacenes st
      ∧ sucursales_almacenes st' = sucursales_almacenes st
      ∧ usuarios st' = usuarios st
      ∧ usuarios_sucursales st' = usuarios_sucursales st.
Proof.
  split; [reflexivity|].
  unfold create_sucursal. unfold_M. simpl.
  eexists _, _. split; [reflexivity|]. simpl.
  split; [apply autoincrement_fresh|]. done.
Qed.

(** ** Effect of one request on the store *)

Ltac unfold_handlers :=
  unfold list_almacenes_de_sucursal, create_sucursal, list_sucursales, get_sucursal,
    assign_usuario_to_sucursal, update_sucursal, delete_sucursal,
    list_usuarios_de_sucursal, remove_usuario_from_sucursal, list_almacenes,
    get_almacen, create_almacen, update_almacen, delete_almacen,
    list_sucursales_de_almacen, link_sucursal_to_almacen,
    unlink_sucursal_from_almacen in *;
  unfold_M.

(** What the row written by an update keeps and what it takes from the body. *)
Lemma updated_sucursal_frame (s s' : Sucursal) (u : SucursalUpdate) :
  updated_sucursal s u = Some s' →
  s_fecha_creacion s' = s_fecha_creacion s
  ∧ s_empresas_id_empresa s' = s_empresas_id_empresa s
  ∧ s_nombre s' = default (s_nombre s) (mjoin (su_nombre u))
  ∧ s_direccion s' = default (s_direccion s) (mjoin (su_direccion u))
  ∧ s_telefono s' = default (s_telefono s) (su_telefono u)
  ∧ s_estado s' = default (s_estado s) (mjoin (su_estado u)).
Proof.
  unfold updated_sucursal, setattr. intros H.
  destruct u as [[[n|]|] [[d|]|] [t|] [[e|]|]]; simpl in *; simplify_eq; done.
Qed.

Lemma updated_almacen_frame (a a' : Almacen) (u : AlmacenUpdate) :
  updated_almacen a u = Some a' →
  a_fecha_creacion a' = a_fecha_creacion a
  ∧ a_empresas_id_empresa a' = a_empresas_id_empresa a
  ∧ a_nombre a' = default (a_nombre a) (mjoin (au_nombre u))
  ∧ a_descripcion a' = default (a_descripcion a) (au_descripcion u)
  ∧ a_es_principal a' = default (a_es_principal a) (mjoin (au_es_principal u))
  ∧ a_estado a' = default (a_estado a) (mjoin (au_estado u)).
Proof.
  unfold updated_almacen, setattr. intros H.
  destruct u as [[[n|]|] [d|] [[p|]|] [[e|]|]]; simpl in *; simplify_eq; done.
Qed.

(** Branch rows are never removed, and keep their company and creation
    time; an inactive one stays inactive unless the request is a partial
    update that sets [estado] to true. *)
Lemma endpoint_sucursales (em : string → option string) (req : Request) (cu : CurrentUser) (st : Store)
    (id : Z) (s : Sucursal) :
  sucursales st !! id = Some s →
  ∃ s', sucursales (endpoint em req cu st).2 !! id = Some s'
        ∧ s_empresas_id_empresa s' = s_empresas_id_empresa s
        ∧ s_fecha_creacion s' = s_fecha_creacion s
        ∧ (sets_estado_true req = false → s_estado s = false → s_estado s' = false).
Proof.
  intros Hs.
  assert (∀ x : Sucursal, <[autoincrement (sucursales st) := x]> (sucursales st) !! id
                          = Some s) as Hfresh.
  { intros x. rewrite lookup_insert_ne; [done|].
    intros <-. by rewrite autoincrement_fresh in Hs. }
  destruct req; simpl; unfold_handlers; simpl;
    repeat (case_match; simpl in *; simplify_eq); eauto.
  - (* update_sucursal *)
    destruct (decide (sucursal_id = id)) as [->|Hne].
    + rewrite lookup_insert_eq. simplify_eq.
      match goal with H : updated_sucursal _ _ = Some _ |- _ =>
        apply updated_sucursal_frame in H as (Hf & He & _ & _ & _ & Hest) end.
      eexists; split; [done|]. split; [done|]. split; [done|].
      intros Hb Hoff. apply bool_decide_eq_false in Hb.
      rewrite Hest, Hoff.
      destruct (su_estado body) as [[[]|]|]; simpl; done.
    + rewrite lookup_insert_ne by done. eauto.
  - (* delete_sucursal *)
    destruct (decide (sucursal_id = id)) as [->|Hne].
    + rewrite lookup_insert_eq. simplify_eq. eauto.
    + rewrite lookup_insert_ne by done. eauto.
Qed.

Lemma endpoint_almacenes (em : string → option string) (req : Request) (cu : CurrentUser) (st : Store)
    (id : Z) (a : Almacen) :
  almacenes st !! id = Some a →
  ∃ a', almacenes (endpoint em req cu st).2 !! id = Some a'
        ∧ a_empresas_id_empresa a' = a_empresas_id_empresa a
        ∧ a_fecha_creacion a' = a_fecha_creacion a
        ∧ (sets_estado_true req = false → a_estado a = false → a_estado a' = false).
Proof.
  intros Ha.
  assert (∀ x : Almacen, <[autoincrement (almacenes st) := x]> (almacenes st) !! id
                         = Some a) as Hfresh.
  { intros x. rewrite lookup_insert_ne; [done|].
    intros <-. by rewrite autoincrement_fresh in Ha. }
  destruct req; simpl; unfold_handlers; simpl;
    repeat (case_match; simpl in *; simplify_eq); eauto.
  - (* update_almacen *)
    destruct (decide (almacen_id = id)) as [->|Hne].
    + rewrite lookup_insert_eq. simplify_eq.
      match goal with H : updated_almacen _ _ = Some _ |- _ =>
        apply updated_almacen_frame in H as (Hf & He & _ & _ & _ & Hest) end.
      eexists; split; [done|]. split; [done|]. split; [done|].
      intros Hb Hoff. apply bool_decide_eq_false in Hb.
      rewrite Hest, Hoff.
      destruct (au_estado body) as [[[]|]|]; simpl; done.
    + rewrite lookup_insert_ne by done. eauto.
  - (* delete_almacen *)
    destruct (decide (almacen_id = id)) as [->|Hne].
    + rewrite lookup_insert_eq. simplify_eq. eauto.
    + rewrite lookup_insert_ne by done. eauto.
Qed.

(** A request that the permission gate refuses leaves the store alone. *)
Lemma handle_cases (rp : CurrentUser → string → string → bool)
    (em : string → option string)
    (req : Request) (cu : CurrentUser) (st : Store) :
  handle rp em req cu st = endpoint em req cu st
  ∨ handle rp em req cu st = (Raise (HTTPException HTTP_403_FORBIDDEN "Forbidden"), st).
Proof.
  unfold handle. destruct (rp cu _ _); [by left|by right].
Qed.




(** ** The states of an entity *)





(** ** Assigning a user to a branch *)

(** C5 at a failing input. The request [POST /sucursales/1/usuarios] with the
    body [{"usuario_id": 7, "sucursales_id_sucursal": 2}] names branch 2 in
    the body and branch 1 in the path.  The parsed payload keeps only
    [usuario_id]; the route answers 201 and the assignment (7, 1) is stored.
    The second function registered for the route, which states the check,
    raises on its first attribute read and would answer 500, not 400. *)
Lemma assign_usuario_path_body_mismatch :
  Sample.body_otra_sucursal !! "sucursales_id_sucursal" = Some 2
  ∧ parse_UsuarioSucursalCreate Sample.body_otra_sucursal
      = Some {| usc_usuario_id := 7 |}
  ∧ (post_sucursal_usuarios 1 Sample.body_otra_sucursal Sample.empresa_1
       Sample.store).1
      = Ok {| usr_usuarios_id_usuario := 7; usr_sucursales_id_sucursal := 1 |}
  ∧ usuarios_sucursales
      (post_sucursal_usuarios 1 Sample.body_otra_sucursal Sample.empresa_1
         Sample.store).2 = {[ (7, 1) ]}
  ∧ assign_usuario_to_sucursal_2 1 {| usc_usuario_id := 7 |} Sample.empresa_1
      Sample.store = (Raise AttributeError, Sample.store)
  ∧ status_of AttributeError = 500.
Proof.
  split; [by vm_compute|]. split; [by vm_compute|].
  split; [by vm_compute|]. split; [|split; by vm_compute].
  apply set_eq. intros p. vm_compute. set_solver.
Qed.

(** ** Soft delete *)

(** What a delete does: 404 and no change when the caller's company has no
    such row, otherwise the row is written back with [estado] false. *)
Lemma delete_sucursal_spec (id : Z) (cu : CurrentUser) (st : Store) :
  match sucursales st !! id with
  | Some s =>
    if decide (s_empresas_id_empresa s = id_empresa (empresa cu)) then
      delete_sucursal id cu st =
        (Ok tt,
         mkStore (<[id := mkSucursal (s_nombre s) (s_direccion s) (s_telefono s)
                            false (s_fecha_creacion s) (s_empresas_id_empresa s)]>
                    (sucursales st))
                 (almacenes st) (sucursales_almacenes st) (usuarios st)
                 (usuarios_sucursales st))
    else delete_sucursal id cu st =
           (Raise (HTTPException HTTP_404_NOT_FOUND "Branch not found"), st)
  | None => delete_sucursal id cu st =
              (Raise (HTTPException HTTP_404_NOT_FOUND "Branch not found"), st)
  end.
Proof.
  unfold delete_sucursal. unfold_M.
  destruct (sucursales st !! id) as [s|]; [|done].
  by case_decide.
Qed.

Lemma delete_almacen_spec (id : Z) (cu : CurrentUser) (st : Store) :
  match almacenes st !! id with
  | Some a =>
    if decide (a_empresas_id_empresa a = id_empresa (empresa cu)) then
      delete_almacen id cu st =
        (Ok tt,
         mkStore (sucursales st)
                 (<[id := mkAlmacen (a_nombre a) (a_descripcion a) (a_es_principal a)
                            false (a_fecha_creacion a) (a_empresas_id_empresa a)]>
                    (almacenes st))
                 (sucursales_almacenes st) (usuarios st) (usuarios_sucursales st))
    else delete_almacen id cu st =
           (Raise (HTTPException HTTP_404_NOT_FOUND "Warehouse not found"), st)
  | None => delete_almacen id cu st =
              (Raise (HTTPException HTTP_404_NOT_FOUND "Warehouse not found"), st)
  end.
Proof.
  unfold delete_almacen. unfold_M.
  destruct (almacenes st !! id) as [a|]; [|done].
  by case_decide.
Qed.

(** After a delete that succeeded, the row is there, inactive, of the
    caller's company, and otherwise as before. *)
Lemma delete_sucursal_ok (id : Z) (cu : CurrentUser) (st st1 : Store) :
  delete_sucursal id cu st = (Ok tt, st1) →
  ∃ s s1, sucursales st !! id = Some s
          ∧ sucursales st1 !! id = Some s1
          ∧ s1 = mkSucursal (s_nombre s) (s_direccion s) (s_telefono s) false
                            (s_fecha_creacion s) (s_empresas_id_empresa s)
          ∧ s_empresas_id_empresa s = id_empresa (empresa cu)
          ∧ st1 = mkStore (<[id := s1]> (sucursales st)) (almacenes st)
                          (sucursales_almacenes st) (usuarios st)
                          (usuarios_sucursales st).
Proof.
  intros Hdel. pose proof (delete_sucursal_spec id cu st) as Hspec.
  destruct (sucursales st !! id) as [s|] eqn:Es; [|congruence].
  case_decide as He; [|congruence].
  rewrite Hspec in Hdel. injection Hdel as <-.
  eexists _, _. split; [done|]. simpl. rewrite lookup_insert_eq. done.
Qed.

Lemma delete_almacen_ok (id : Z) (cu : CurrentUser) (st st1 : Store) :
  delete_almacen id cu st = (Ok tt, st1) →
  ∃ a a1, almacenes st !! id = Some a
          ∧ almacenes st1 !! id = Some a1
          ∧ a1 = mkAlmacen (a_nombre a) (a_descripcion a) (a_es_principal a) false
                           (a_fecha_creacion a) (a_empresas_id_empresa a)
          ∧ a_empresas_id_empresa a = id_empresa (empresa cu)
          ∧ st1 = mkStore (sucursales st) (<[id := a1]> (almacenes st))
                          (sucursales_almacenes st) (usuarios st)
                          (usuarios_sucursales st).
Proof.
  intros Hdel. pose proof (delete_almacen_spec id cu st) as Hspec.
  destruct (almacenes st !! id) as [a|] eqn:Ea; [|congruence].
  case_decide as He; [|congruence].
  rewrite Hspec in Hdel. injection Hdel as <-.
  eexists _, _. split; [done|]. simpl. rewrite lookup_insert_eq. done.
Qed.

(** C6, as the spec states it, fails: the lookup of [delete_sucursal] does
    not read [estado], so the second delete of branch 1 of the sample store
    by its owner finds the row and answers 204 again, not 404. *)
Lemma second_delete_succeeds :
  (delete_sucursal 1 Sample.empresa_1 Sample.store).1 = Ok tt
  ∧ (delete_sucursal 1 Sample.empresa_1
       (delete_sucursal 1 Sample.empresa_1 Sample.store).2).1 = Ok tt
  ∧ ¬ (∀ id cu st st1,
         delete_sucursal id cu st = (Ok tt, st1) →
         ∃ detail, (delete_sucursal id cu st1).1
                   = Raise (HTTPException HTTP_404_NOT_FOUND detail)).
Proof.
  split; [by vm_compute|]. split; [by vm_compute|].
  intros Hclaim.
  destruct (Hclaim 1 Sample.empresa_1 Sample.store
              (delete_sucursal 1 Sample.empresa_1 Sample.store).2)
    as [detail Hd].
  - by destruct (delete_sucursal 1 Sample.empresa_1 Sample.store) as [[[]|] ?] eqn:E;
      vm_compute in E; simplify_eq.
  - vm_compute in Hd. discriminate Hd.
Qed.

(** C6, amended. Delete can be repeated: after a delete of a branch or of a
    warehouse that answered 204, the same delete by the same caller answers
    204 again and changes nothing more.  A delete answers 204 whenever the
    caller's company has a row under the id, whatever its [estado]; it
    answers 404, and changes nothing, when the company has none; and it
    raises nothing else, so it answers 404 only then. *)
Theorem delete_twice_succeeds (id : Z) (cu : CurrentUser) (st : Store) :
  (∀ st1, delete_sucursal id cu st = (Ok tt, st1) →
          delete_sucursal id cu st1 = (Ok tt, st1))
  ∧ (∀ st1, delete_almacen id cu st = (Ok tt, st1) →
            delete_almacen id cu st1 = (Ok tt, st1))
  ∧ (¬ sucursal_en_empresa st (id_empresa (empresa cu)) id →
     delete_sucursal id cu st =
       (Raise (HTTPException HTTP_404_NOT_FOUND "Branch not found"), st))
  ∧ (¬ almacen_en_empresa st (id_empresa (empresa cu)) id →
     delete_almacen id cu st =
       (Raise (HTTPException HTTP_404_NOT_FOUND "Warehouse not found"), st))
  ∧ (sucursal_en_empresa st (id_empresa (empresa cu)) id →
     (delete_sucursal id cu st).1 = Ok tt)
  ∧ (almacen_en_empresa st (id_empresa (empresa cu)) id →
     (delete_almacen id cu st).1 = Ok tt)
  ∧ (∀ err, (delete_sucursal id cu st).1 = Raise err →
            err = HTTPException HTTP_404_NOT_FOUND "Branch not found"
            ∧ ¬ sucursal_en_empresa st (id_empresa (empresa cu)) id)
  ∧ (∀ err, (delete_almacen id cu st).1 = Raise err →
            err = HTTPException HTTP_404_NOT_FOUND "Warehouse not found"
            ∧ ¬ almacen_en_empresa st (id_empresa (empresa cu)) id).
Proof.
  split; [|split; [|split; [|split; [|split; [|split; [|split]]]]]].
  - intros st1 Hdel.
    apply delete_sucursal_ok in Hdel as (s & s1 & Hs & Hs1 & -> & He & ->).
    pose proof (delete_sucursal_spec id cu
      (mkStore (<[id := mkSucursal (s_nombre s) (s_direccion s) (s_telefono s) false
                          (s_fecha_creacion s) (s_empresas_id_empresa s)]>
                  (sucursales st))
               (almacenes st) (sucursales_almacenes st) (usuarios st)
               (usuarios_sucursales st))) as Hspec.
    simpl in Hspec. rewrite lookup_insert_eq in Hspec. simpl in Hspec.
    rewrite decide_True in Hspec by done.
    rewrite Hspec. by rewrite insert_insert_eq.
  - intros st1 Hdel.
    apply delete_almacen_ok in Hdel as (a & a1 & Ha & Ha1 & -> & He & ->).
    pose proof (delete_almacen_spec id cu
      (mkStore (sucursales st)
               (<[id := mkAlmacen (a_nombre a) (a_descripcion a) (a_es_principal a)
                          false (a_fecha_creacion a) (a_empresas_id_empresa a)]>
                  (almacenes st))
               (sucursales_almacenes st) (usuarios st)
               (usuarios_sucursales st))) as Hspec.
    simpl in Hspec. rewrite lookup_insert_eq in Hspec. simpl in Hspec.
    rewrite decide_True in Hspec by done.
    rewrite Hspec. by rewrite insert_insert_eq.
  - intros Hno. pose proof (delete_sucursal_spec id cu st) as Hspec.
    destruct (sucursales st !! id) as [s|] eqn:Es; [|done].
    case_decide as He; [|done]. destruct Hno. by exists s.
  - intros Hno. pose proof (delete_almacen_spec id cu st) as Hspec.
    destruct (almacenes st !! id) as [a|] eqn:Ea; [|done].
    case_decide as He; [|done]. destruct Hno. by exists a.
  - intros (s & Hs & He). pose proof (delete_sucursal_spec id cu st) as Hspec.
    rewrite Hs in Hspec. rewrite decide_True in Hspec by done. by rewrite Hspec.
  - intros (a & Ha & He). pose proof (delete_almacen_spec id cu st) as Hspec.
    rewrite Ha in Hspec. rewrite decide_True in Hspec by done. by rewrite Hspec.
  - intros err Herr. pose proof (delete_sucursal_spec id cu st) as Hspec.
    destruct (sucursales st !! id) as [s|] eqn:Es.
    + case_decide as He; rewrite Hspec in Herr; simpl in Herr; simplify_eq.
      split; [done|]. intros (s' & Hs' & He'). by simplify_eq.
    + rewrite Hspec in Herr. simpl in Herr. simplify_eq.
      split; [done|]. intros (s' & Hs' & He'). by simplify_eq.
  - intros err Herr. pose proof (delete_almacen_spec id cu st) as Hspec.
    destruct (almacenes st !! id) as [a|] eqn:Ea.
    + case_decide as He; rewrite Hspec in Herr; simpl in Herr; simplify_eq.
      split; [done|]. intros (a' & Ha' & He'). by simplify_eq.
    + rewrite Hspec in Herr. simpl in Herr. simplify_eq.
      split; [done|]. intros (a' & Ha' & He'). by simplify_eq.
Qed.

Lemma delete_twice_succeeds_witness :
  delete_sucursal 1 Sample.empresa_1
    (delete_sucursal 1 Sample.empresa_1 Sample.store).2
  = (Ok tt, (delete_sucursal 1 Sample.empresa_1 Sample.store).2)
  ∧ delete_almacen 1 Sample.empresa_1
      (delete_almacen 1 Sample.empresa_1 Sample.store).2
    = (Ok tt, (delete_almacen 1 Sample.empresa_1 Sample.store).2)
  ∧ delete_sucursal 3 Sample.empresa_1 Sample.store
    = (Raise (HTTPException 404 "Branch not found"), Sample.store)
  ∧ delete_almacen 5 Sample.empresa_1 Sample.store
    = (Raise (HTTPException 404 "Warehouse not found"), Sample.store)
  ∧ (delete_sucursal 2 Sample.empresa_1 Sample.store).1 = Ok tt
  ∧ (delete_almacen 1 Sample.empresa_1 Sample.store).1 = Ok tt.
Proof.
  split; [|split; [|split; [|split; [|split]]]].
  - apply (delete_twice_succeeds 1 Sample.empresa_1 Sample.store).
    by vm_compute.
  - apply (delete_twice_succeeds 1 Sample.empresa_1 Sample.store).
    by vm_compute.
  - apply (delete_twice_succeeds 3 Sample.empresa_1 Sample.store).
    intros [s [Hs He]]. vm_compute in Hs. injection Hs as <-. discriminate He.
  - apply (delete_twice_succeeds 5 Sample.empresa_1 Sample.store).
    intros [a [Ha He]]. vm_compute in Ha. discriminate Ha.
  - apply (delete_twice_succeeds 2 Sample.empresa_1 Sample.store).
    exists Sample.cerrada. by vm_compute.
  - apply (delete_twice_succeeds 1 Sample.empresa_1 Sample.store).
    exists Sample.deposito. by vm_compute.
Defined.

(** C7. Soft-deleted rows stay retrievable: after a delete of a branch (or
    of a warehouse) that answered 204, the row is still stored under its id
    with [estado] false and its other columns as before, and a get of the
    same id by any caller of the same company succeeds and answers with the
    image of that row. *)
Theorem soft_deleted_still_retrievable
    (id : Z) (cu cu' : CurrentUser) (st : Store) :
  id_empresa (empresa cu') = id_empresa (empresa cu) →
  (∀ st1, delete_sucursal id cu st = (Ok tt, st1) →
     ∃ s, sucursales st !! id = Some s
          ∧ sucursales st1 !! id
              = Some (mkSucursal (s_nombre s) (s_direccion s) (s_telefono s) false
                                 (s_fecha_creacion s) (s_empresas_id_empresa s))
          ∧ get_sucursal id cu' st1
              = (Ok {| sr_nombre := s_nombre s;
                       sr_direccion := s_direccion s;
                       sr_telefono := s_telefono s;
                       sr_estado := Some false;
                       sr_id_sucursal := id;
                       sr_fecha_creacion := s_fecha_creacion s |}, st1))
  ∧ (∀ st1, delete_almacen id cu st = (Ok tt, st1) →
       ∃ a, almacenes st !! id = Some a
            ∧ almacenes st1 !! id
                = Some (mkAlmacen (a_nombre a) (a_descripcion a) (a_es_principal a)
                                  false (a_fecha_creacion a) (a_empresas_id_empresa a))
            ∧ get_almacen id cu' st1
                = (Ok {| ar_nombre := a_nombre a;
                         ar_descripcion := a_descripcion a;
                         ar_es_principal := a_es_principal a;
                         ar_estado := Some false;
                         ar_id_almacen := id;
                         ar_fecha_creacion := a_fecha_creacion a |}, st1)).
Proof.
  intros Hcu. split; intros st1 Hdel.
  - apply delete_sucursal_ok in Hdel as (s & s1 & Hs & Hs1 & -> & He & ->).
    exists s. split; [done|]. split; [by rewrite Hs1|].
    unfold get_sucursal. unfold_M. simpl. simpl in Hs1. rewrite Hs1. simpl.
    rewrite decide_True by congruence. done.
  - apply delete_almacen_ok in Hdel as (a & a1 & Ha & Ha1 & -> & He & ->).
    exists a. split; [done|]. split; [by rewrite Ha1|].
    unfold get_almacen. unfold_M. simpl. simpl in Ha1. rewrite Ha1. simpl.
    rewrite decide_True by congruence. done.
Qed.

Lemma soft_deleted_still_retrievable_witness :
  (delete_sucursal 1 Sample.empresa_1 Sample.store).1 = Ok tt
  ∧ (get_sucursal 1 Sample.empresa_1
       (delete_sucursal 1 Sample.empresa_1 Sample.store).2).1
    = Ok {| sr_nombre := "Centro"; sr_direccion := "Av. Heroinas 12";
            sr_telefono := Some "4440000"; sr_estado := Some false;
            sr_id_sucursal := 1; sr_fecha_creacion := 1700000000 |}
  ∧ (delete_almacen 1 Sample.empresa_1 Sample.store).1 = Ok tt
  ∧ (get_almacen 1 Sample.empresa_1
       (delete_almacen 1 Sample.empresa_1 Sample.store).2).1
    = Ok {| ar_nombre := "Deposito"; ar_descripcion := None;
            ar_es_principal := true; ar_estado := Some false;
            ar_id_almacen := 1; ar_fecha_creacion := 1700000300 |}.
Proof.
  pose proof (soft_deleted_still_retrievable 1 Sample.empresa_1 Sample.empresa_1
                Sample.store eq_refl) as [Hsuc Halm].
  split; [by vm_compute|]. split; [|split; [by vm_compute|]].
  - destruct (Hsuc (delete_sucursal 1 Sample.empresa_1 Sample.store).2)
      as (s & Hs & _ & Hget); [by vm_compute|].
    vm_compute in Hs. injection Hs as <-. by rewrite Hget.
  - destruct (Halm (delete_almacen 1 Sample.empresa_1 Sample.store).2)
      as (a & Ha & _ & Hget); [by vm_compute|].
    vm_compute in Ha. injection Ha as <-. by rewrite Hget.
Defined.

(** ** Partial update *)

Lemma update_sucursal_spec (id : Z) (body : SucursalUpdate) (cu : CurrentUser)
    (st : Store) :
  update_sucursal id body cu st =
    match sucursales st !! id with
    | Some s =>
      if decide (s_empresas_id_empresa s = id_empresa (empresa cu)) then
        match updated_sucursal s body with
        | Some s' =>
          (Ok (SucursalResponse_of id s'),
           mkStore (<[id := s']> (sucursales st)) (almacenes st)
                   (sucursales_almacenes st) (usuarios st) (usuarios_sucursales st))
        | None => (Raise IntegrityError, st)
        end
      else (Raise (HTTPException HTTP_404_NOT_FOUND "Branch not found"), st)
    | None => (Raise (HTTPException HTTP_404_NOT_FOUND "Branch not found"), st)
    end.
Proof.
  unfold update_sucursal. unfold_M.
  destruct (sucursales st !! id) as [s|]; [|done].
  case_decide; [|done].
  by destruct (updated_sucursal s body).
Qed.

Lemma update_almacen_spec (id : Z) (body : AlmacenUpdate) (cu : CurrentUser)
    (st : Store) :
  update_almacen id body cu st =
    match almacenes st !! id with
    | Some a =>
      if decide (a_empresas_id_empresa a = id_empresa (empresa cu)) then
        match updated_almacen a body with
        | Some a' =>
          (Ok (AlmacenResponse_of id a'),
           mkStore (sucursales st) (<[id := a']> (almacenes st))
                   (sucursales_almacenes st) (usuarios st) (usuarios_sucursales st))
        | None => (Raise IntegrityError, st)
        end
      else (Raise (HTTPException HTTP_404_NOT_FOUND "Warehouse not found"), st)
    | None => (Raise (HTTPException HTTP_404_NOT_FOUND "Warehouse not found"), st)
    end.
Proof.
  unfold update_almacen. unfold_M.
  destruct (almacenes st !! id) as [a|]; [|done].
  case_decide; [|done].
  by destruct (updated_almacen a body).
Qed.

(** C9. Partial-update frame: a PATCH of a branch or of a warehouse that the
    caller's company owns writes only the row under that id (every other row
    and every other table is as before), and in that row the creation time,
    the company and each column the body does not supply are unchanged; when
    it answers, the response is the image of the written row and each
    supplied column holds the supplied value; when a column declared not
    null is supplied as null the flush raises and the row is as before.
    When the company has no row under the id the handler answers 404 and the
    store is unchanged. *)
Theorem partial_update_frame (id : Z) (cu : CurrentUser) (st : Store) :
  (∀ (body : SucursalUpdate) (s : Sucursal),
      sucursales st !! id = Some s →
      s_empresas_id_empresa s = id_empresa (empresa cu) →
      ∃ s', (update_sucursal id body cu st).2
              = mkStore (<[id := s']> (sucursales st)) (almacenes st)
                        (sucursales_almacenes st) (usuarios st) (usuarios_sucursales st)
            ∧ s_fecha_creacion s' = s_fecha_creacion s
            ∧ s_empresas_id_empresa s' = s_empresas_id_empresa s
            ∧ (su_nombre body = None → s_nombre s' = s_nombre s)
            ∧ (su_direccion body = None → s_direccion s' = s_direccion s)
            ∧ (su_telefono body = None → s_telefono s' = s_telefono s)
            ∧ (su_estado body = None → s_estado s' = s_estado s)
            ∧ match (update_sucursal id body cu st).1 with
              | Ok r =>
                r = SucursalResponse_of id s'
                ∧ (∀ v, su_nombre body = Some (Some v) → s_nombre s' = v)
                ∧ (∀ v, su_direccion body = Some (Some v) → s_direccion s' = v)
                ∧ (∀ v, su_telefono body = Some v → s_telefono s' = v)
                ∧ (∀ v, su_estado body = Some (Some v) → s_estado s' = v)
              | Raise e =>
                e = IntegrityError ∧ s' = s
                ∧ (su_nombre body = Some None ∨ su_direccion body = Some None
                   ∨ su_estado body = Some None)
              end)
  ∧ (∀ (body : AlmacenUpdate) (a : Almacen),
        almacenes st !! id = Some a →
        a_empresas_id_empresa a = id_empresa (empresa cu) →
        ∃ a', (update_almacen id body cu st).2
                = mkStore (sucursales st) (<[id := a']> (almacenes st))
                          (sucursales_almacenes st) (usuarios st) (usuarios_sucursales st)
              ∧ a_fecha_creacion a' = a_fecha_creacion a
              ∧ a_empresas_id_empresa a' = a_empresas_id_empresa a
              ∧ (au_nombre body = None → a_nombre a' = a_nombre a)
              ∧ (au_descripcion body = None → a_descripcion a' = a_descripcion a)
              ∧ (au_es_principal body = None → a_es_principal a' = a_es_principal a)
              ∧ (au_estado body = None → a_estado a' = a_estado a)
              ∧ match (update_almacen id body cu st).1 with
                | Ok r =>
                  r = AlmacenResponse_of id a'
                  ∧ (∀ v, au_nombre body = Some (Some v) → a_nombre a' = v)
                  ∧ (∀ v, au_descripcion body = Some v → a_descripcion a' = v)
                  ∧ (∀ v, au_es_principal body = Some (Some v) → a_es_principal a' = v)
                  ∧ (∀ v, au_estado body = Some (Some v) → a_estado a' = v)
                | Raise e =>
                  e = IntegrityError ∧ a' = a
                  ∧ (au_nombre body = Some None ∨ au_es_principal body = Some None
                     ∨ au_estado body = Some None)
                end)
  ∧ (∀ body : SucursalUpdate,
       ¬ sucursal_en_empresa st (id_empresa (empresa cu)) id →
       update_sucursal id body cu st =
         (Raise (HTTPException HTTP_404_NOT_FOUND "Branch not found"), st))
  ∧ (∀ body : AlmacenUpdate,
       ¬ almacen_en_empresa st (id_empresa (empresa cu)) id →
       update_almacen id body cu st =
         (Raise (HTTPException HTTP_404_NOT_FOUND "Warehouse not found"), st)).
Proof.
  split; [|split; [|split]].
  - intros body s.
    intros Hs He. rewrite update_sucursal_spec, Hs. rewrite decide_True by done.
    destruct (updated_sucursal s body) as [s'|] eqn:Eu; simpl.
    + exists s'. split; [done|].
      apply updated_sucursal_frame in Eu as (Hf & Hc & Hn & Hd & Ht & Hest).
      rewrite Hn, Hd, Ht, Hest.
      repeat split; try done; try (by intros ->); intros v Hv; by rewrite Hv.
    + exists s. split.
      { rewrite insert_id by done. by destruct st. }
      repeat split; try done.
      unfold updated_sucursal, setattr in Eu.
      destruct (su_nombre body) as [[?|]|]; [| by left |];
        (destruct (su_direccion body) as [[?|]|]; [| by right; left |]);
        (destruct (su_estado body) as [[?|]|]; [| by right; right |]);
        simplify_eq.
  - intros body a.
    intros Ha He. rewrite update_almacen_spec, Ha. rewrite decide_True by done.
    destruct (updated_almacen a body) as [a'|] eqn:Eu; simpl.
    + exists a'. split; [done|].
      apply updated_almacen_frame in Eu as (Hf & Hc & Hn & Hd & Hp & Hest).
      rewrite Hn, Hd, Hp, Hest.
      repeat split; try done; try (by intros ->); intros v Hv; by rewrite Hv.
    + exists a. split.
      { rewrite insert_id by done. by destruct st. }
      repeat split; try done.
      unfold updated_almacen, setattr in Eu.
      destruct (au_nombre body) as [[?|]|]; [| by left |];
        (destruct (au_es_principal body) as [[?|]|]; [| by right; left |]);
        (destruct (au_estado body) as [[?|]|]; [| by right; right |]);
        simplify_eq.
  - intros body Hno. rewrite update_sucursal_spec.
    destruct (sucursales st !! id) as [s|] eqn:Es; [|done].
    case_decide as He; [|done]. destruct Hno. by exists s.
  - intros body Hno. rewrite update_almacen_spec.
    destruct (almacenes st !! id) as [a|] eqn:Ea; [|done].
    case_decide as He; [|done]. destruct Hno. by exists a.
Qed.

Lemma partial_update_frame_witness :
  (∃ s', sucursales (update_sucursal 1 Sample.renombrar Sample.empresa_1
                       Sample.store).2 !! 1 = Some s'
         ∧ s_nombre s' = "Centro 2"
         ∧ s_direccion s' = "Av. Heroinas 12"
         ∧ s_telefono s' = Some "4440000"
         ∧ s_estado s' = true
         ∧ s_fecha_creacion s' = 1700000000
         ∧ s_empresas_id_empresa s' = 1)
  ∧ update_sucursal 3 Sample.renombrar Sample.empresa_1 Sample.store
    = (Raise (HTTPException 404 "Branch not found"), Sample.store).
Proof.
  destruct (partial_update_frame 1 Sample.empresa_1 Sample.store)
    as (Hsuc & _ & _ & _).
  destruct (partial_update_frame 3 Sample.empresa_1 Sample.store)
    as (_ & _ & Hno & _).
  split.
  - destruct (Hsuc Sample.renombrar Sample.centro eq_refl eq_refl)
      as (s' & Hst & Hf & Hc & _ & Hd & Ht & He & Hok).
    exists s'. rewrite Hst. simpl. rewrite lookup_insert_eq.
    split; [done|].
    assert (s_nombre s' = "Centro 2") as Hn.
    { vm_compute in Hok. destruct Hok as (_ & Hn & _). exact (Hn _ eq_refl). }
    rewrite Hn, (Hd eq_refl), (Ht eq_refl), (He eq_refl), Hf, Hc. done.
  - apply Hno.
    intros [s [Hs He]]. vm_compute in Hs. injection Hs as <-. discriminate He.
Defined.

(** ** Branch-warehouse links *)

Lemma create_almacen_spec (body : AlmacenCreate) (cu : CurrentUser) (now : Z)
    (st : Store) :
  create_almacen body cu now st =
    match sucursales st !! ac_sucursal_id body with
    | Some s =>
      if decide (s_empresas_id_empresa s = id_empresa (empresa cu)) then
        let id := autoincrement (almacenes st) in
        let a := new_almacen body cu now in
        if decide ((ac_sucursal_id body, id) ∈ sucursales_almacenes st) then
          (Raise IntegrityError,
           mkStore (sucursales st) (<[id := a]> (almacenes st))
                   (sucursales_almacenes st) (usuarios st) (usuarios_sucursales st))
        else
          (Ok (AlmacenResponse_of id a),
           mkStore (sucursales st) (<[id := a]> (almacenes st))
                   ({[ (ac_sucursal_id body, id) ]} ∪ sucursales_almacenes st)
                   (usuarios st) (usuarios_sucursales st))
      else (Raise (HTTPException HTTP_400_BAD_REQUEST
                     "Sucursal does not belong to your company or does not exist"), st)
    | None => (Raise (HTTPException HTTP_400_BAD_REQUEST
                        "Sucursal does not belong to your company or does not exist"), st)
    end.
Proof.
  unfold create_almacen. unfold_M.
  destruct (sucursales st !! ac_sucursal_id body) as [s|] eqn:Es; [|done].
  case_decide; [|done]. simpl.
  case_decide; [done|].
  rewrite decide_True; [done|].
  split; [by rewrite Es|]. by rewrite lookup_insert_eq.
Qed.

Lemma link_sucursal_to_almacen_spec (almacen_id : Z) (payload : SucursalAlmacenCreate)
    (cu : CurrentUser) (st : Store) :
  (∃ e, link_sucursal_to_almacen almacen_id payload cu st = (Raise e, st))
  ∨ (almacen_en_empresa st (id_empresa (empresa cu)) almacen_id
     ∧ sucursal_en_empresa st (id_empresa (empresa cu)) (sac_sucursal_id payload)
     ∧ link_sucursal_to_almacen almacen_id payload cu st =
         (Ok {| sar_sucursales_id_sucursal := sac_sucursal_id payload;
                sar_almacenes_id_almacen := almacen_id |},
          mkStore (sucursales st) (almacenes st)
                  ({[ (sac_sucursal_id payload, almacen_id) ]} ∪ sucursales_almacenes st)
                  (usuarios st) (usuarios_sucursales st))).
Proof.
  unfold link_sucursal_to_almacen. unfold_M.
  destruct (almacenes st !! almacen_id) as [a|] eqn:Ea; [|by left; eexists].
  case_decide as Hea; [|by left; eexists]. simpl.
  destruct (sucursales st !! sac_sucursal_id payload) as [s|] eqn:Es;
    [|by left; eexists].
  case_decide as Hes; [|by left; eexists]. simpl.
  case_decide; [by left; eexists|].
  case_decide; [|by left; eexists].
  right. split; [by exists a|]. split; [by exists s|]. done.
Qed.

(** A link row present after a request was there before, or connects a
    branch and a warehouse that both belong to the caller's company. *)
Lemma endpoint_links (em : string → option string) (req : Request) (cu : CurrentUser) (st : Store) (s a : Z) :
  (s, a) ∈ sucursales_almacenes (endpoint em req cu st).2 →
  (s, a) ∈ sucursales_almacenes st
  ∨ (sucursal_en_empresa (endpoint em req cu st).2 (id_empresa (empresa cu)) s
     ∧ almacen_en_empresa (endpoint em req cu st).2 (id_empresa (empresa cu)) a).
Proof.
  destruct req;
    try (simpl; unfold_handlers; simpl;
         repeat (case_match; simpl in *; simplify_eq); by eauto).
  - (* create_almacen *)
    simpl. unfold fmap, M_fmap, mbind, M_bind, mret, M_ret.
    rewrite create_almacen_spec.
    destruct (sucursales st !! ac_sucursal_id body) as [s1|] eqn:Es; [|by left].
    case_decide as He; [|by left]. simpl.
    case_decide; simpl; [by left|].
    intros [Hnew%elem_of_singleton|Hold]%elem_of_union; [|by left].
    simplify_eq. right. split.
    + by exists s1.
    + exists (new_almacen body cu now). simpl. by rewrite lookup_insert_eq.
  - (* link_sucursal_to_almacen *)
    simpl. unfold fmap, M_fmap, mbind, M_bind, mret, M_ret.
    destruct (link_sucursal_to_almacen_spec almacen_id body cu st)
      as [[e ->]|(Ha & Hs & ->)]; simpl; [by left|].
    intros [Hnew%elem_of_singleton|Hold]%elem_of_union; [|by left].
    simplify_eq. by right.
  - (* unlink_sucursal_from_almacen *)
    simpl. unfold_handlers. simpl.
    repeat (case_match; simpl in *; simplify_eq); eauto.
    intros [Hold _]%elem_of_difference. by left.
Qed.

Lemma handle_links_same_company (rp : CurrentUser → string → string → bool)
    (em : string → option string)
    (req : Request) (cu : CurrentUser) (st : Store) :
  links_same_company st → links_same_company (handle rp em req cu st).2.
Proof.
  intros Hinv.
  destruct (handle_cases rp em req cu st) as [-> | ->]; [|done].
  intros s a Hin.
  destruct (endpoint_links em req cu st s a Hin)
    as [Hold | [(rs & Hrs & Hes) (ra & Hra & Hea)]].
  - destruct (Hinv s a Hold) as (rs & ra & Hrs & Hra & Heq).
    destruct (endpoint_sucursales em req cu st s rs Hrs) as (rs' & Hrs' & Hes' & _).
    destruct (endpoint_almacenes em req cu st a ra Hra) as (ra' & Hra' & Hea' & _).
    exists rs', ra'. split; [done|]. split; [done|]. congruence.
  - exists rs, ra. split; [done|]. split; [done|]. congruence.
Qed.

Lemma run_links_same_company (rp : CurrentUser → string → string → bool)
    (em : string → option string)
    (reqs : list (Request * CurrentUser)) (st : Store) :
  links_same_company st → links_same_company (run rp em reqs st).
Proof.
  revert st. induction reqs as [|[req cu] reqs IH]; intros st Hinv; simpl; [done|].
  by apply IH, handle_links_same_company.
Qed.

(** C8. Same-company link invariant: a link row that a request adds (only
    [create_almacen] and [link_sucursal_to_almacen] add any) connects a
    branch and a warehouse that both belong to the caller's company; no
    request removes a branch or a warehouse row or changes its company; so
    if every link row connects a branch and a warehouse of one company
    before a request, or before a sequence of requests, the same holds
    after it, whether the request answers or raises. *)
Theorem links_same_company_invariant
    (rp : CurrentUser → string → string → bool)
    (em : string → option string)
    (req : Request) (cu : CurrentUser) (st : Store) :
  (∀ s a, (s, a) ∈ sucursales_almacenes (handle rp em req cu st).2 →
          (s, a) ∉ sucursales_almacenes st →
          sucursal_en_empresa (handle rp em req cu st).2 (id_empresa (empresa cu)) s
          ∧ almacen_en_empresa (handle rp em req cu st).2 (id_empresa (empresa cu)) a)
  ∧ (∀ id s, sucursales st !! id = Some s →
       ∃ s', sucursales (handle rp em req cu st).2 !! id = Some s'
             ∧ s_empresas_id_empresa s' = s_empresas_id_empresa s)
  ∧ (∀ id a, almacenes st !! id = Some a →
       ∃ a', almacenes (handle rp em req cu st).2 !! id = Some a'
             ∧ a_empresas_id_empresa a' = a_empresas_id_empresa a)
  ∧ (links_same_company st → links_same_company (handle rp em req cu st).2)
  ∧ (∀ reqs, links_same_company st → links_same_company (run rp em reqs st)).
Proof.
  split; [|split; [|split; [|split]]].
  - intros s a Hin Hnew.
    destruct (handle_cases rp em req cu st) as [E | E]; rewrite E in *; [|done].
    destruct (endpoint_links em req cu st s a Hin) as [Hold|Hboth]; done.
  - intros id s Hs.
    destruct (handle_cases rp em req cu st) as [-> | ->]; [|by eauto].
    destruct (endpoint_sucursales em req cu st id s Hs) as (s' & Hs' & He & _). eauto.
  - intros id a Ha.
    destruct (handle_cases rp em req cu st) as [-> | ->]; [|by eauto].
    destruct (endpoint_almacenes em req cu st id a Ha) as (a' & Ha' & He & _). eauto.
  - apply handle_links_same_company.
  - intros reqs. apply run_links_same_company.
Qed.

Lemma links_same_company_invariant_witness :
  links_same_company Sample.store
  ∧ (1, 1) ∈ sucursales_almacenes
               (handle Sample.permit_all Sample.email_str
                  (LinkSucursalToAlmacen 1 {| sac_sucursal_id := 1 |})
                  Sample.empresa_1 Sample.store).2
  ∧ links_same_company
      (handle Sample.permit_all Sample.email_str
         (LinkSucursalToAlmacen 1 {| sac_sucursal_id := 1 |})
         Sample.empresa_1 Sample.store).2
  ∧ links_same_company
      (run Sample.permit_all Sample.email_str
         [(CreateAlmacen (Sample.nuevo_almacen 1) 1700001000, Sample.empresa_1);
          (LinkSucursalToAlmacen 2 {| sac_sucursal_id := 2 |}, Sample.empresa_1);
          (DeleteSucursal 2, Sample.empresa_1);
          (UnlinkSucursalFromAlmacen 1 2, Sample.empresa_1)]
         Sample.store).
Proof.
  assert (links_same_company Sample.store) as Hinv.
  { intros s a Hin. unfold Sample.store in Hin. simpl in Hin.
    apply elem_of_singleton in Hin. simplify_eq.
    exists Sample.cerrada, Sample.deposito. by vm_compute. }
  split; [exact Hinv|]. split; [|split].
  - vm_compute. set_solver.
  - by apply (links_same_company_invariant Sample.permit_all Sample.email_str
                (LinkSucursalToAlmacen 1 {| sac_sucursal_id := 1 |})
                Sample.empresa_1 Sample.store).
  - by apply (links_same_company_invariant Sample.permit_all Sample.email_str
                ListSucursales Sample.empresa_1 Sample.store).
Defined.

(** ** Create, then list *)

(** C10. Create-then-list round trip: from a store with no link row for
    branch [sucursal_id], when [create_almacen] with that [sucursal_id]
    answers with warehouse [w] (so the branch is the caller's company's),
    the listing of the warehouses of that branch by a caller of the same
    company, on the store the create left, answers exactly [[w]]. *)
Theorem create_then_list_almacenes
    (body : AlmacenCreate) (cu cu' : CurrentUser) (now : Z) (st st' : Store)
    (w : AlmacenResponse) :
  (∀ a, (ac_sucursal_id body, a) ∉ sucursales_almacenes st) →
  id_empresa (empresa cu') = id_empresa (empresa cu) →
  create_almacen body cu now st = (Ok w, st') →
  list_almacenes_de_sucursal (ac_sucursal_id body) cu' st' = (Ok [w], st').
Proof.
  intros Hnone Hcu Hcreate. rewrite create_almacen_spec in Hcreate.
  destruct (sucursales st !! ac_sucursal_id body) as [s|] eqn:Es; [|done].
  case_decide as He; [|done]. simpl in Hcreate.
  case_decide as Hdup; [done|]. simplify_eq.
  unfold list_almacenes_de_sucursal. unfold_M. simpl.
  rewrite Es. rewrite decide_True by congruence. simpl.
  f_equal. f_equal.
  set (id := autoincrement (almacenes st)).
  set (a := new_almacen body cu now).
  set (f := λ sa : Z * Z,
         match <[id := a]> (almacenes st) !! sa.2 with
         | Some a0 =>
           if decide (sa.1 = ac_sucursal_id body
                      ∧ a_empresas_id_empresa a0 = id_empresa (empresa cu'))
           then [(sa.2, a0)] else []
         | None => []
         end).
  assert (elements (sucursales_almacenes st) ≫= f = []) as Hrest.
  { apply elem_of_nil_inv. intros r Hr.
    apply list_elem_of_bind in Hr as ([sid aid] & Hr & Hin).
    apply elem_of_elements in Hin. unfold f in Hr. simpl in Hr.
    destruct (<[id := a]> (almacenes st) !! aid); [|by apply not_elem_of_nil in Hr].
    case_decide as Hc; [|by apply not_elem_of_nil in Hr].
    destruct Hc as [-> _]. by apply Hnone in Hin. }
  assert (f (ac_sucursal_id body, id) = [(id, a)]) as Hnew.
  { unfold f. simpl. rewrite lookup_insert_eq.
    rewrite decide_True; [done|]. split; [done|]. by rewrite Hcu. }
  assert (order_by_key
            (elements ({[(ac_sucursal_id body, id)]} ∪ sucursales_almacenes st) ≫= f)
          = [(id, a)]) as Hsorted.
  { apply Permutation_singleton_r. unfold order_by_key.
    rewrite merge_sort_Permutation.
    rewrite elements_union_singleton by apply Hnone.
    by rewrite bind_cons, Hnew, Hrest. }
  exact (f_equal (fmap (λ r : Z * Almacen, AlmacenResponse_of r.1 r.2)) Hsorted).
Qed.

Lemma create_then_list_almacenes_witness :
  (create_almacen (Sample.nuevo_almacen 1) Sample.empresa_1 1700001000
     Sample.store).1
  = Ok {| ar_nombre := "Anexo"; ar_descripcion := Some "planta baja";
          ar_es_principal := false; ar_estado := Some true;
          ar_id_almacen := 2; ar_fecha_creacion := 1700001000 |}
  ∧ (list_almacenes_de_sucursal 1 Sample.empresa_1
       (create_almacen (Sample.nuevo_almacen 1) Sample.empresa_1 1700001000
          Sample.store).2).1
    = Ok [ {| ar_nombre := "Anexo"; ar_descripcion := Some "planta baja";
              ar_es_principal := false; ar_estado := Some true;
              ar_id_almacen := 2; ar_fecha_creacion := 1700001000 |} ].
Proof.
  split; [by vm_compute|].
  refine (f_equal fst
            (create_then_list_almacenes (Sample.nuevo_almacen 1)
               Sample.empresa_1 Sample.empresa_1 1700001000 Sample.store
               (create_almacen (Sample.nuevo_almacen 1) Sample.empresa_1 1700001000
                  Sample.store).2
               {| ar_nombre := "Anexo"; ar_descripcion := Some "planta baja";
                  ar_es_principal := false; ar_estado := Some true;
                  ar_id_almacen := 2; ar_fecha_creacion := 1700001000 |}
               _ _ _)).
  - intros a Hin. unfold Sample.store in Hin. simpl in Hin.
    apply elem_of_singleton in Hin. discriminate Hin.
  - done.
  - by vm_compute.
Defined.

(** * Further properties of the handlers *)

(** ** The join listings *)

Section join.
Context {A : Type} (t : gmap Z A) (key other : Z * Z → Z) (x : Z)
  (P : A → Prop) `{!∀ a, Decision (P a)}.
Hypothesis key_other_inj : ∀ p q, key p = key q → other p = other q → p = q.

Lemma elem_of_join_rows (links : list (Z * Z)) (k : Z) (a : A) :
  (k, a) ∈ join_rows t key other x P links
  ↔ t !! k = Some a ∧ P a ∧ ∃ sa, sa ∈ links ∧ key sa = k ∧ other sa = x.
Proof.
  unfold join_rows. rewrite list_elem_of_bind. split.
  - intros (sa & Hin & Hsa).
    destruct (t !! key sa) as [a'|] eqn:Ek; [|by apply not_elem_of_nil in Hin].
    case_decide as Hc; [|by apply not_elem_of_nil in Hin].
    apply list_elem_of_singleton in Hin. simplify_eq.
    destruct Hc as [Hx HP]. eauto 10.
  - intros (Hk & HP & sa & Hsa & <- & Hx).
    exists sa. split; [|done]. rewrite Hk.
    rewrite decide_True by done. by apply list_elem_of_singleton.
Qed.

Lemma NoDup_join_rows_keys (links : list (Z * Z)) :
  NoDup links → NoDup (join_rows t key other x P links).*1.
Proof.
  induction 1 as [|sa links Hnotin Hnd IH]; [constructor|].
  unfold join_rows. rewrite bind_cons, fmap_app.
  fold (join_rows t key other x P links).
  destruct (t !! key sa) as [a|] eqn:Ek; [|done].
  case_decide as Hc; [|done]. simpl. constructor; [|done].
  intros Hin. apply list_elem_of_fmap in Hin as ([k a'] & Hk & Hin).
  simpl in Hk. subst k.
  apply elem_of_join_rows in Hin as (_ & _ & sa' & Hsa' & Hkey & Hx).
  destruct Hc as [Hxsa _].
  assert (sa' = sa) as -> by (apply key_other_inj; congruence).
  done.
Qed.

Lemma Sorted_lt_le_NoDup (ks : list Z) :
  Sorted Z.le ks → NoDup ks → Sorted Z.lt ks.
Proof.
  intros Hs Hnd. apply Sorted_StronglySorted in Hs; [|apply _].
  apply StronglySorted_Sorted.
  induction Hs as [|k ks Hs IH Hall]; [constructor|].
  apply NoDup_cons in Hnd as [Hk Hnd].
  constructor; [by apply IH|].
  apply Forall_forall. intros k' Hk'.
  assert (k ≤ k') by (by eapply Forall_forall in Hall).
  assert (k ≠ k') by (intros ->; done). lia.
Qed.

Lemma order_by_key_join_rows_sorted (links : list (Z * Z)) :
  NoDup links →
  Sorted Z.lt (order_by_key (join_rows t key other x P links)).*1.
Proof.
  intros Hnd. apply Sorted_lt_le_NoDup.
  - apply (Sorted_fmap fst by_key Z.le); [done|].
    unfold order_by_key. apply Sorted_merge_sort.
    intros p q. unfold by_key. lia.
  - unfold order_by_key. rewrite merge_sort_Permutation.
    by apply NoDup_join_rows_keys.
Qed.

Lemma elem_of_order_by_key_join_rows (links : list (Z * Z)) (k : Z) (a : A) :
  (k, a) ∈ order_by_key (join_rows t key other x P links)
  ↔ t !! k = Some a ∧ P a ∧ ∃ sa, sa ∈ links ∧ key sa = k ∧ other sa = x.
Proof.
  unfold order_by_key. rewrite merge_sort_Permutation.
  apply elem_of_join_rows.
Qed.

End join.

Lemma list_almacenes_de_sucursal_join (sucursal_id : Z) (cu : CurrentUser) (st : Store) :
  sucursal_en_empresa st (id_empresa (empresa cu)) sucursal_id →
  list_almacenes_de_sucursal sucursal_id cu st =
    (Ok ((λ r, AlmacenResponse_of r.1 r.2) <$>
           order_by_key
             (join_rows (almacenes st) snd fst sucursal_id
                (λ a, a_empresas_id_empresa a = id_empresa (empresa cu))
                (elements (sucursales_almacenes st)))), st).
Proof.
  intros (s & Hs & He). unfold list_almacenes_de_sucursal. unfold_M.
  rewrite Hs. rewrite decide_True by done. reflexivity.
Qed.

Lemma list_sucursales_de_almacen_join (almacen_id : Z) (cu : CurrentUser) (st : Store) :
  almacen_en_empresa st (id_empresa (empresa cu)) almacen_id →
  list_sucursales_de_almacen almacen_id cu st =
    (Ok ((λ r, SucursalResponse_of r.1 r.2) <$>
           order_by_key
             (join_rows (sucursales st) fst snd almacen_id
                (λ s, s_empresas_id_empresa s = id_empresa (empresa cu))
                (elements (sucursales_almacenes st)))), st).
Proof.
  intros (a & Ha & He). unfold list_sucursales_de_almacen. unfold_M.
  rewrite Ha. rewrite decide_True by done. reflexivity.
Qed.

Lemma list_usuarios_de_sucursal_join (em : string → option string)
    (sucursal_id : Z) (cu : CurrentUser) (st : Store) :
  sucursal_en_empresa st (id_empresa (empresa cu)) sucursal_id →
  list_usuarios_de_sucursal em sucursal_id cu st =
    match mapM (λ r, UsuarioEnSucursalResponse_of em r.1 r.2)
               (order_by_key
                  (join_rows (usuarios st) fst snd sucursal_id
                     (λ u, u_empresas_id_empresa u = id_empresa (empresa cu))
                     (elements (usuarios_sucursales st)))) with
    | Some l => (Ok l, st)
    | None => (Raise ValidationError, st)
    end.
Proof.
  intros (s & Hs & He). unfold list_usuarios_de_sucursal. unfold_M.
  rewrite Hs. rewrite decide_True by done. simpl.
  unfold join_rows.
  change (list_bind ?A ?B ?f ?l) with (@mbind list _ A B f l).
  by case_match.
Qed.

Lemma snd_fst_inj (p q : Z * Z) : p.2 = q.2 → p.1 = q.1 → p = q.
Proof. destruct p, q; simpl; congruence. Qed.

Lemma fst_snd_inj (p q : Z * Z) : p.1 = q.1 → p.2 = q.2 → p = q.
Proof. destruct p, q; simpl; congruence. Qed.

(** X3. The warehouses of a branch: for a branch of the caller's company the
    listing answers, leaves the store as it is, is in strictly increasing
    order of [id_almacen] (so no warehouse is listed twice), and holds
    exactly the images of the warehouses of the caller's company that a link
    row connects to the branch, active or not. *)
Theorem list_almacenes_de_sucursal_exact
    (sucursal_id : Z) (cu : CurrentUser) (st : Store) :
  sucursal_en_empresa st (id_empresa (empresa cu)) sucursal_id →
  ∃ l, list_almacenes_de_sucursal sucursal_id cu st = (Ok l, st)
       ∧ Sorted Z.lt (ar_id_almacen <$> l)
       ∧ ∀ r, r ∈ l ↔
              almacen_of_empresa st (id_empresa (empresa cu)) r
              ∧ (sucursal_id, ar_id_almacen r) ∈ sucursales_almacenes st.
Proof.
  intros Hown. rewrite (list_almacenes_de_sucursal_join _ _ _ Hown).
  eexists. split; [done|]. split.
  - rewrite <- list_fmap_compose.
    apply (order_by_key_join_rows_sorted _ _ _ _ _ snd_fst_inj), NoDup_elements.
  - intros r. rewrite list_elem_of_fmap. split.
    + intros ([k a] & -> & Hin).
      apply elem_of_order_by_key_join_rows in Hin
        as (Hk & He & [s' a'] & Hsa & Hkey & Hother).
      simpl in *. subst. apply elem_of_elements in Hsa.
      split; [|done]. by exists a.
    + intros [(a & Ha & He & Hr) Hlink].
      exists (ar_id_almacen r, a). split; [done|].
      apply elem_of_order_by_key_join_rows.
      split; [done|]. split; [done|].
      exists (sucursal_id, ar_id_almacen r). by rewrite elem_of_elements.
Qed.

Lemma list_almacenes_de_sucursal_exact_witness :
  (list_almacenes_de_sucursal 2 Sample.empresa_1 Sample.store).1
  = Ok [AlmacenResponse_of 1 Sample.deposito].
Proof.
  destruct (list_almacenes_de_sucursal_exact 2 Sample.empresa_1 Sample.store)
    as (l & Hl & _ & _).
  - exists Sample.cerrada. by vm_compute.
  - rewrite Hl. simpl. f_equal.
    assert (Ok l = Ok [AlmacenResponse_of 1 Sample.deposito]) as Heq; [|by simplify_eq].
    change (Ok l) with (Ok l, Sample.store).1. rewrite <- Hl. by vm_compute.
Defined.

(** X4. The branches of a warehouse: for a warehouse of the caller's company
    the listing answers, leaves the store as it is, is in strictly
    increasing order of [id_sucursal], and holds exactly the images of the
    branches of the caller's company that a link row connects to the
    warehouse. *)
Theorem list_sucursales_de_almacen_exact
    (almacen_id : Z) (cu : CurrentUser) (st : Store) :
  almacen_en_empresa st (id_empresa (empresa cu)) almacen_id →
  ∃ l, list_sucursales_de_almacen almacen_id cu st = (Ok l, st)
       ∧ Sorted Z.lt (sr_id_sucursal <$> l)
       ∧ ∀ r, r ∈ l ↔
              sucursal_of_empresa st (id_empresa (empresa cu)) r
              ∧ (sr_id_sucursal r, almacen_id) ∈ sucursales_almacenes st.
Proof.
  intros Hown. rewrite (list_sucursales_de_almacen_join _ _ _ Hown).
  eexists. split; [done|]. split.
  - rewrite <- list_fmap_compose.
    apply (order_by_key_join_rows_sorted _ _ _ _ _ fst_snd_inj), NoDup_elements.
  - intros r. rewrite list_elem_of_fmap. split.
    + intros ([k s] & -> & Hin).
      apply elem_of_order_by_key_join_rows in Hin
        as (Hk & He & [s' a'] & Hsa & Hkey & Hother).
      simpl in *. subst. apply elem_of_elements in Hsa.
      split; [|done]. by exists s.
    + intros [(s & Hs & He & Hr) Hlink].
      exists (sr_id_sucursal r, s). split; [done|].
      apply elem_of_order_by_key_join_rows.
      split; [done|]. split; [done|].
      exists (sr_id_sucursal r, almacen_id). by rewrite elem_of_elements.
Qed.

Lemma list_sucursales_de_almacen_exact_witness :
  (list_sucursales_de_almacen 1 Sample.empresa_1 Sample.store).1
  = Ok [SucursalResponse_of 2 Sample.cerrada].
Proof.
  destruct (list_sucursales_de_almacen_exact 1 Sample.empresa_1 Sample.store)
    as (l & Hl & _ & _).
  - exists Sample.deposito. by vm_compute.
  - rewrite Hl. simpl. f_equal.
    assert (Ok l = Ok [SucursalResponse_of 2 Sample.cerrada]) as Heq; [|by simplify_eq].
    change (Ok l) with (Ok l, Sample.store).1. rewrite <- Hl. by vm_compute.
Defined.

Lemma UsuarioEnSucursalResponse_of_id (em : string → option string)
    (id : Z) (u : Usuario) (r : UsuarioEnSucursalResponse) :
  UsuarioEnSucursalResponse_of em id u = Some r → uer_id_usuario r = id.
Proof.
  unfold UsuarioEnSucursalResponse_of. intros H.
  destruct u as [[n|] [a|] [e|] [d|] [s|] [f|] c]; simpl in H; try done;
    destruct (em e); simpl in H; by simplify_eq.
Qed.

Lemma Forall2_elem_of_l {A B} (P : A → B → Prop) (l : list A) (k : list B) (x : A) :
  Forall2 P l k → x ∈ l → ∃ y, y ∈ k ∧ P x y.
Proof.
  induction 1 as [|x' y' l k HP _ IH]; intros Hin; [by apply not_elem_of_nil in Hin|].
  apply elem_of_cons in Hin as [->|Hin].
  - exists y'. split; [left|done].
  - destruct (IH Hin) as (y & Hy & HPy). exists y. split; [by right|done].
Qed.

Lemma Forall2_elem_of_r {A B} (P : A → B → Prop) (l : list A) (k : list B) (y : B) :
  Forall2 P l k → y ∈ k → ∃ x, x ∈ l ∧ P x y.
Proof.
  induction 1 as [|x' y' l k HP _ IH]; intros Hin; [by apply not_elem_of_nil in Hin|].
  apply elem_of_cons in Hin as [->|Hin].
  - exists x'. split; [left|done].
  - destruct (IH Hin) as (x & Hx & HPx). exists x. split; [by right|done].
Qed.

(** X5. The users of a branch: for a branch of the caller's company the
    listing leaves the store as it is and joins the users of the caller's
    company assigned to the branch.  When the response model accepts every
    joined row (all displayed columns present, the e-mail an address) it
    answers, in strictly increasing order of [id_usuario], with exactly the
    validated images of those rows, none left out; when it refuses one of
    them the listing raises the validation error.  For any other branch id
    it answers 404. *)
Theorem list_usuarios_de_sucursal_exact (em : string → option string)
    (sucursal_id : Z) (cu : CurrentUser) (st : Store) :
  (sucursal_en_empresa st (id_empresa (empresa cu)) sucursal_id →
   (list_usuarios_de_sucursal em sucursal_id cu st).2 = st
   ∧ match (list_usuarios_de_sucursal em sucursal_id cu st).1 with
     | Ok l =>
       Sorted Z.lt (uer_id_usuario <$> l)
       ∧ (∀ r, r ∈ l ↔
               ∃ u, usuario_asignado st (id_empresa (empresa cu)) sucursal_id
                      (uer_id_usuario r) u
                    ∧ UsuarioEnSucursalResponse_of em (uer_id_usuario r) u = Some r)
       ∧ (∀ id u, usuario_asignado st (id_empresa (empresa cu)) sucursal_id id u →
                  ∃ r, r ∈ l ∧ UsuarioEnSucursalResponse_of em id u = Some r)
     | Raise err =>
       err = ValidationError
       ∧ ∃ id u, usuario_asignado st (id_empresa (empresa cu)) sucursal_id id u
                 ∧ UsuarioEnSucursalResponse_of em id u = None
     end)
  ∧ (¬ sucursal_en_empresa st (id_empresa (empresa cu)) sucursal_id →
     list_usuarios_de_sucursal em sucursal_id cu st =
       (Raise (HTTPException HTTP_404_NOT_FOUND "Branch not found in your company"),
        st)).
Proof.
  split.
  - intros Hown. rewrite (list_usuarios_de_sucursal_join _ _ _ _ Hown).
    set (rows := order_by_key
                   (join_rows (usuarios st) fst snd sucursal_id
                      (λ u, u_empresas_id_empresa u = id_empresa (empresa cu))
                      (elements (usuarios_sucursales st)))).
    assert (∀ id u, (id, u) ∈ rows ↔
                    usuario_asignado st (id_empresa (empresa cu)) sucursal_id id u)
      as Hrows.
    { intros id u. unfold rows, usuario_asignado.
      rewrite elem_of_order_by_key_join_rows. split.
      - intros (Hu & He & [u' s'] & Hin & Hk & Ho). simpl in *. subst.
        by apply elem_of_elements in Hin.
      - intros (Hu & He & Hin). split; [done|]. split; [done|].
        exists (id, sucursal_id). by rewrite elem_of_elements. }
    assert (Sorted Z.lt rows.*1) as Hsorted.
    { apply (order_by_key_join_rows_sorted _ _ _ _ _ fst_snd_inj), NoDup_elements. }
    clearbody rows.
    destruct (mapM _ rows) as [l|] eqn:El; simpl; (split; [done|]).
    + apply mapM_Some in El. split; [|split].
      * assert (uer_id_usuario <$> l = rows.*1) as ->; [|done].
        clear Hrows Hsorted. induction El as [|[id u] r rows' l Hr _ IH]; [done|].
        simpl in *. f_equal; [|done].
        by apply UsuarioEnSucursalResponse_of_id in Hr.
      * intros r. split.
        -- intros Hr.
           destruct (Forall2_elem_of_r _ _ _ _ El Hr) as ([id u] & Hin & Hval).
           simpl in Hval.
           pose proof (UsuarioEnSucursalResponse_of_id _ _ _ _ Hval) as ->.
           exists u. split; [by apply Hrows|done].
        -- intros (u & Hu%Hrows & Hval).
           destruct (Forall2_elem_of_l _ _ _ _ El Hu) as (r' & Hr' & Hval').
           simpl in Hval'. by simplify_eq.
      * intros id u Hu%Hrows.
        destruct (Forall2_elem_of_l _ _ _ _ El Hu) as (r & Hr & Hval). eauto.
    + split; [done|].
      apply mapM_None_1, Exists_exists in El as ([id u] & Hin & Hval).
      exists id, u. split; [by apply Hrows|done].
  - intros Hno. unfold list_usuarios_de_sucursal. unfold_M.
    destruct (sucursales st !! sucursal_id) as [s|] eqn:Es; [|done].
    case_decide as He; [|done]. destruct Hno. by exists s.
Qed.

Lemma list_usuarios_de_sucursal_exact_witness :
  (list_usuarios_de_sucursal Sample.email_str 1 Sample.empresa_1
     (assign_usuario_to_sucursal 1 {| usc_usuario_id := 7 |} Sample.empresa_1
        Sample.store).2).1
  = Ok [ {| uer_id_usuario := 7; uer_nombre := "Ana"; uer_apellido := "Rojas";
            uer_email := "ana@example.com"; uer_es_dueno := false;
            uer_estado := true; uer_fecha_creacion := 1700000400 |} ]
  ∧ list_usuarios_de_sucursal Sample.email_str 1 Sample.empresa_1
      Sample.store_sin_correo
    = (Raise ValidationError, Sample.store_sin_correo)
  ∧ list_usuarios_de_sucursal Sample.email_str 3 Sample.empresa_1 Sample.store
    = (Raise (HTTPException 404 "Branch not found in your company"), Sample.store).
Proof.
  split; [by vm_compute|]. split.
  - destruct (list_usuarios_de_sucursal_exact Sample.email_str 1 Sample.empresa_1
                Sample.store_sin_correo) as [Hlist _].
    destruct Hlist as [Hst Hout]; [exists Sample.centro; by vm_compute|].
    destruct (list_usuarios_de_sucursal Sample.email_str 1 Sample.empresa_1
                Sample.store_sin_correo) as [[l|err] st'] eqn:E;
      simpl in Hst, Hout; subst st'.
    + vm_compute in E. discriminate E.
    + by destruct Hout as [-> _].
  - apply (list_usuarios_de_sucursal_exact Sample.email_str 3 Sample.empresa_1
             Sample.store).
    intros [s [Hs He]]. vm_compute in Hs. injection Hs as <-. discriminate He.
Defined.

(** ** Lookups and collection listings *)

(** X1. Get is scoped to the caller's company: [get_sucursal] and
    [get_almacen] never change the store; they answer with the image of the
    row under the id exactly when that row exists and belongs to the
    caller's company, whatever its [estado]; and answer 404 otherwise, so a
    row of another company is not told apart from a missing one. *)
Theorem get_scoped_to_empresa (id : Z) (cu : CurrentUser) (st : Store) :
  (∀ s, sucursales st !! id = Some s →
        s_empresas_id_empresa s = id_empresa (empresa cu) →
        get_sucursal id cu st = (Ok (SucursalResponse_of id s), st))
  ∧ (¬ sucursal_en_empresa st (id_empresa (empresa cu)) id →
     get_sucursal id cu st =
       (Raise (HTTPException HTTP_404_NOT_FOUND "Branch not found"), st))
  ∧ (∀ a, almacenes st !! id = Some a →
          a_empresas_id_empresa a = id_empresa (empresa cu) →
          get_almacen id cu st = (Ok (AlmacenResponse_of id a), st))
  ∧ (¬ almacen_en_empresa st (id_empresa (empresa cu)) id →
     get_almacen id cu st =
       (Raise (HTTPException HTTP_404_NOT_FOUND "Warehouse not found"), st)).
Proof.
  unfold get_sucursal, get_almacen. unfold_M. repeat split.
  - intros s -> He. by rewrite decide_True.
  - intros Hno. destruct (sucursales st !! id) as [s|] eqn:Es; [|done].
    case_decide; [|done]. destruct Hno. by exists s.
  - intros a -> He. by rewrite decide_True.
  - intros Hno. destruct (almacenes st !! id) as [a|] eqn:Ea; [|done].
    case_decide; [|done]. destruct Hno. by exists a.
Qed.

Lemma get_scoped_to_empresa_witness :
  get_sucursal 2 Sample.empresa_1 Sample.store
  = (Ok (SucursalResponse_of 2 Sample.cerrada), Sample.store)
  ∧ get_sucursal 2 Sample.empresa_2 Sample.store
    = (Raise (HTTPException 404 "Branch not found"), Sample.store)
  ∧ get_almacen 1 Sample.empresa_1 Sample.store
    = (Ok (AlmacenResponse_of 1 Sample.deposito), Sample.store)
  ∧ get_almacen 4 Sample.empresa_1 Sample.store
    = (Raise (HTTPException 404 "Warehouse not found"), Sample.store).
Proof.
  split; [|split; [|split]].
  - by apply (get_scoped_to_empresa 2 Sample.empresa_1 Sample.store).
  - apply (get_scoped_to_empresa 2 Sample.empresa_2 Sample.store).
    intros [s [Hs He]]. vm_compute in Hs. injection Hs as <-. discriminate He.
  - by apply (get_scoped_to_empresa 1 Sample.empresa_1 Sample.store).
  - apply (get_scoped_to_empresa 4 Sample.empresa_1 Sample.store).
    intros [a [Ha He]]. vm_compute in Ha. discriminate Ha.
Defined.

(** X2. The collection listings are complete and without repetition:
    [list_sucursales] and [list_almacenes] answer with exactly the images of
    the rows of the caller's company, inactive ones included, each id once. *)
Theorem collection_listings_complete (cu : CurrentUser) (st : Store) :
  (∃ l, list_sucursales cu st = (Ok l, st)
        ∧ NoDup (sr_id_sucursal <$> l)
        ∧ ∀ r, r ∈ l ↔ sucursal_of_empresa st (id_empresa (empresa cu)) r)
  ∧ (∃ l, list_almacenes cu st = (Ok l, st)
          ∧ NoDup (ar_id_almacen <$> l)
          ∧ ∀ r, r ∈ l ↔ almacen_of_empresa st (id_empresa (empresa cu)) r).
Proof.
  split.
  - unfold list_sucursales. unfold_M. eexists. split; [done|]. split.
    + rewrite <- list_fmap_compose.
      eapply sublist_NoDup; [apply (NoDup_fst_map_to_list (sucursales st))|].
      apply fmap_sublist, sublist_filter.
    + intros r. rewrite list_elem_of_fmap. split.
      * intros ([k s] & -> & Hin). apply list_elem_of_filter in Hin as [He Hin].
        apply elem_of_map_to_list in Hin. by exists s.
      * intros (s & Hs & He & Hr). exists (sr_id_sucursal r, s). split; [done|].
        apply list_elem_of_filter. split; [done|]. by apply elem_of_map_to_list.
  - unfold list_almacenes. unfold_M. eexists. split; [done|]. split.
    + rewrite <- list_fmap_compose.
      eapply sublist_NoDup; [apply (NoDup_fst_map_to_list (almacenes st))|].
      apply fmap_sublist, sublist_filter.
    + intros r. rewrite list_elem_of_fmap. split.
      * intros ([k a] & -> & Hin). apply list_elem_of_filter in Hin as [He Hin].
        apply elem_of_map_to_list in Hin. by exists a.
      * intros (a & Ha & He & Hr). exists (ar_id_almacen r, a). split; [done|].
        apply list_elem_of_filter. split; [done|]. by apply elem_of_map_to_list.
Qed.

(** ** User assignments *)

(** X6. The outcomes of assigning a user to a branch, in the order the
    handler checks them: 400 when the branch is not the caller's company's,
    400 when the user is not, the constraint error of the flush (500) when
    the user is already assigned to the branch, each with the store
    unchanged; otherwise 201 with the pair, and the store gains exactly that
    assignment row. *)
Theorem assign_usuario_to_sucursal_outcome
    (sucursal_id : Z) (payload : UsuarioSucursalCreate) (cu : CurrentUser)
    (st : Store) :
  (¬ sucursal_en_empresa st (id_empresa (empresa cu)) sucursal_id →
   assign_usuario_to_sucursal sucursal_id payload cu st =
     (Raise (HTTPException HTTP_400_BAD_REQUEST
               "Sucursal does not belong to your company or does not exist"), st))
  ∧ (sucursal_en_empresa st (id_empresa (empresa cu)) sucursal_id →
     ¬ usuario_en_empresa st (id_empresa (empresa cu)) (usc_usuario_id payload) →
     assign_usuario_to_sucursal sucursal_id payload cu st =
       (Raise (HTTPException HTTP_400_BAD_REQUEST
                 "User does not belong to your company or does not exist"), st))
  ∧ (sucursal_en_empresa st (id_empresa (empresa cu)) sucursal_id →
     usuario_en_empresa st (id_empresa (empresa cu)) (usc_usuario_id payload) →
     (usc_usuario_id payload, sucursal_id) ∈ usuarios_sucursales st →
     assign_usuario_to_sucursal sucursal_id payload cu st = (Raise IntegrityError, st))
  ∧ (sucursal_en_empresa st (id_empresa (empresa cu)) sucursal_id →
     usuario_en_empresa st (id_empresa (empresa cu)) (usc_usuario_id payload) →
     (usc_usuario_id payload, sucursal_id) ∉ usuarios_sucursales st →
     assign_usuario_to_sucursal sucursal_id payload cu st =
       (Ok {| usr_usuarios_id_usuario := usc_usuario_id payload;
              usr_sucursales_id_sucursal := sucursal_id |},
        with_usuarios_sucursales
          ({[ (usc_usuario_id payload, sucursal_id) ]} ∪ usuarios_sucursales st) st)).
Proof.
  unfold assign_usuario_to_sucursal. unfold_M. repeat split.
  - intros Hno. destruct (sucursales st !! sucursal_id) as [s|] eqn:Es; [|done].
    case_decide; [|done]. destruct Hno. by exists s.
  - intros (s & -> & He) Hno. rewrite decide_True by done. simpl.
    destruct (usuarios st !! usc_usuario_id payload) as [u|] eqn:Eu; [|done].
    case_decide; [|done]. destruct Hno. by exists u.
  - intros (s & Hs & He) (u & Hu & Heu) Hin. rewrite Hs.
    rewrite decide_True by done. simpl. rewrite Hu.
    rewrite decide_True by done. simpl. by rewrite decide_True.
  - intros (s & Hs & He) (u & Hu & Heu) Hnotin. rewrite Hs.
    rewrite decide_True by done. simpl. rewrite Hu.
    rewrite decide_True by done. simpl. rewrite decide_False by done.
    rewrite Hs. by rewrite decide_True.
Qed.

Lemma assign_usuario_to_sucursal_outcome_witness :
  assign_usuario_to_sucursal 3 {| usc_usuario_id := 7 |} Sample.empresa_1 Sample.store
  = (Raise (HTTPException 400
              "Sucursal does not belong to your company or does not exist"),
     Sample.store)
  ∧ assign_usuario_to_sucursal 1 {| usc_usuario_id := 8 |} Sample.empresa_1
      Sample.store
    = (Raise (HTTPException 400
                "User does not belong to your company or does not exist"),
       Sample.store)
  ∧ (assign_usuario_to_sucursal 1 {| usc_usuario_id := 7 |} Sample.empresa_1
       Sample.store).1
    = Ok {| usr_usuarios_id_usuario := 7; usr_sucursales_id_sucursal := 1 |}
  ∧ assign_usuario_to_sucursal 1 {| usc_usuario_id := 7 |} Sample.empresa_1
      (with_usuarios_sucursales {[ (7, 1) ]} Sample.store)
    = (Raise IntegrityError, with_usuarios_sucursales {[ (7, 1) ]} Sample.store).
Proof.
  assert (sucursal_en_empresa Sample.store 1 1) as Hs
    by (exists Sample.centro; by vm_compute).
  assert (usuario_en_empresa Sample.store 1 7) as Hu
    by (exists Sample.empleado; by vm_compute).
  split; [|split; [|split]].
  - apply (assign_usuario_to_sucursal_outcome 3 _ Sample.empresa_1 Sample.store).
    intros [s [Hs3 He]]. vm_compute in Hs3. injection Hs3 as <-. discriminate He.
  - apply (assign_usuario_to_sucursal_outcome 1 {| usc_usuario_id := 8 |}
             Sample.empresa_1 Sample.store); [done|].
    intros [u [Hu8 He]]. vm_compute in Hu8. discriminate Hu8.
  - destruct (assign_usuario_to_sucursal_outcome 1 {| usc_usuario_id := 7 |}
                Sample.empresa_1 Sample.store) as (_ & _ & _ & Hok).
    rewrite Hok; [done..|]. set_solver.
  - apply (assign_usuario_to_sucursal_outcome 1 {| usc_usuario_id := 7 |}
             Sample.empresa_1 (with_usuarios_sucursales {[ (7, 1) ]} Sample.store));
      [done..|]. set_solver.
Defined.

(** X7. The outcomes of removing a user from a branch: 404 when the branch
    is not the caller's company's, 404 when there is no assignment row for
    the pair, each with the store unchanged; otherwise the store loses
    exactly that assignment row.  The user's own company is not looked at. *)
Theorem remove_usuario_from_sucursal_outcome
    (sucursal_id usuario_id : Z) (cu : CurrentUser) (st : Store) :
  (¬ sucursal_en_empresa st (id_empresa (empresa cu)) sucursal_id →
   remove_usuario_from_sucursal sucursal_id usuario_id cu st =
     (Raise (HTTPException HTTP_404_NOT_FOUND "Branch not found in your company"),
      st))
  ∧ (sucursal_en_empresa st (id_empresa (empresa cu)) sucursal_id →
     (usuario_id, sucursal_id) ∉ usuarios_sucursales st →
     remove_usuario_from_sucursal sucursal_id usuario_id cu st =
       (Raise (HTTPException HTTP_404_NOT_FOUND "Assignment not found"), st))
  ∧ (sucursal_en_empresa st (id_empresa (empresa cu)) sucursal_id →
     (usuario_id, sucursal_id) ∈ usuarios_sucursales st →
     remove_usuario_from_sucursal sucursal_id usuario_id cu st =
       (Ok tt,
        with_usuarios_sucursales
          (usuarios_sucursales st ∖ {[ (usuario_id, sucursal_id) ]}) st)).
Proof.
  unfold remove_usuario_from_sucursal. unfold_M. repeat split.
  - intros Hno. destruct (sucursales st !! sucursal_id) as [s|] eqn:Es; [|done].
    case_decide; [|done]. destruct Hno. by exists s.
  - intros (s & -> & He) Hnotin. rewrite decide_True by done. simpl.
    by rewrite decide_False.
  - intros (s & -> & He) Hin. rewrite decide_True by done. simpl.
    by rewrite decide_True.
Qed.

Lemma remove_usuario_from_sucursal_outcome_witness :
  remove_usuario_from_sucursal 3 7 Sample.empresa_1 Sample.store
  = (Raise (HTTPException 404 "Branch not found in your company"), Sample.store)
  ∧ remove_usuario_from_sucursal 1 7 Sample.empresa_1 Sample.store
    = (Raise (HTTPException 404 "Assignment not found"), Sample.store)
  ∧ (remove_usuario_from_sucursal 1 7 Sample.empresa_1
       (with_usuarios_sucursales {[ (7, 1) ]} Sample.store)).1 = Ok tt.
Proof.
  assert (sucursal_en_empresa Sample.store 1 1) as Hs
    by (exists Sample.centro; by vm_compute).
  split; [|split].
  - apply (remove_usuario_from_sucursal_outcome 3 7 Sample.empresa_1 Sample.store).
    intros [s [Hs3 He]]. vm_compute in Hs3. injection Hs3 as <-. discriminate He.
  - apply (remove_usuario_from_sucursal_outcome 1 7 Sample.empresa_1 Sample.store);
      [done|]. set_solver.
  - destruct (remove_usuario_from_sucursal_outcome 1 7 Sample.empresa_1
                (with_usuarios_sucursales {[ (7, 1) ]} Sample.store))
      as (_ & _ & Hok).
    rewrite Hok; [done..|]. set_solver.
Defined.

(** X8. Assign, then remove: when assigning a user to a branch answers,
    removing that user from that branch by the same caller, on the store the
    assignment left, succeeds and gives back the store from before the
    assignment. *)
Theorem assign_then_remove_usuario
    (sucursal_id : Z) (payload : UsuarioSucursalCreate) (cu : CurrentUser)
    (st st1 : Store) (r : UsuarioSucursalResponse) :
  assign_usuario_to_sucursal sucursal_id payload cu st = (Ok r, st1) →
  remove_usuario_from_sucursal sucursal_id (usc_usuario_id payload) cu st1
    = (Ok tt, st).
Proof.
  unfold assign_usuario_to_sucursal, remove_usuario_from_sucursal. unfold_M.
  intros Hassign.
  destruct (sucursales st !! sucursal_id) as [s|] eqn:Es; [|done].
  case_decide as He; [|done]. simpl in Hassign.
  destruct (usuarios st !! usc_usuario_id payload) as [u|]; [|done].
  case_decide; [|done]. simpl in Hassign.
  case_decide as Hin; [done|].
  rewrite Es in Hassign. rewrite decide_True in Hassign by done.
  simplify_eq. simpl. rewrite Es. rewrite decide_True by done. simpl.
  rewrite decide_True by (apply elem_of_union_l; by apply elem_of_singleton).
  destruct st as [ss aa sa uu us]. simpl in *.
  do 2 f_equal. apply set_eq. intros p.
  rewrite elem_of_difference, elem_of_union, elem_of_singleton.
  split; [by intros [[->|Hp] Hne]|].
  intros Hp. split; [by right|]. by intros ->.
Qed.

Lemma assign_then_remove_usuario_witness :
  remove_usuario_from_sucursal 1 7 Sample.empresa_1
    (assign_usuario_to_sucursal 1 {| usc_usuario_id := 7 |} Sample.empresa_1
       Sample.store).2
  = (Ok tt, Sample.store).
Proof.
  apply (assign_then_remove_usuario 1 {| usc_usuario_id := 7 |} Sample.empresa_1
           Sample.store _
           {| usr_usuarios_id_usuario := 7; usr_sucursales_id_sucursal := 1 |}).
  by vm_compute.
Defined.

(** ** Linking branches and warehouses *)

(** X9. The outcomes of linking a branch to a warehouse, in the order the
    handler checks them: 400 when the warehouse of the path is not the
    caller's company's, 400 when the branch of the body is not, the
    constraint error of the flush (500) when the pair is already linked,
    each with the store unchanged; otherwise 201 with the pair, and the
    store gains exactly that link row. *)
Theorem link_sucursal_to_almacen_outcome
    (almacen_id : Z) (payload : SucursalAlmacenCreate) (cu : CurrentUser)
    (st : Store) :
  (¬ almacen_en_empresa st (id_empresa (empresa cu)) almacen_id →
   link_sucursal_to_almacen almacen_id payload cu st =
     (Raise (HTTPException HTTP_400_BAD_REQUEST
               "Almacen does not belong to your company or does not exist"), st))
  ∧ (almacen_en_empresa st (id_empresa (empresa cu)) almacen_id →
     ¬ sucursal_en_empresa st (id_empresa (empresa cu)) (sac_sucursal_id payload) →
     link_sucursal_to_almacen almacen_id payload cu st =
       (Raise (HTTPException HTTP_400_BAD_REQUEST
                 "Sucursal does not belong to your company or does not exist"), st))
  ∧ (almacen_en_empresa st (id_empresa (empresa cu)) almacen_id →
     sucursal_en_empresa st (id_empresa (empresa cu)) (sac_sucursal_id payload) →
     (sac_sucursal_id payload, almacen_id) ∈ sucursales_almacenes st →
     link_sucursal_to_almacen almacen_id payload cu st = (Raise IntegrityError, st))
  ∧ (almacen_en_empresa st (id_empresa (empresa cu)) almacen_id →
     sucursal_en_empresa st (id_empresa (empresa cu)) (sac_sucursal_id payload) →
     (sac_sucursal_id payload, almacen_id) ∉ sucursales_almacenes st →
     link_sucursal_to_almacen almacen_id payload cu st =
       (Ok {| sar_sucursales_id_sucursal := sac_sucursal_id payload;
              sar_almacenes_id_almacen := almacen_id |},
        with_sucursales_almacenes
          ({[ (sac_sucursal_id payload, almacen_id) ]} ∪ sucursales_almacenes st) st)).
Proof.
  unfold link_sucursal_to_almacen. unfold_M. repeat split.
  - intros Hno. destruct (almacenes st !! almacen_id) as [a|] eqn:Ea; [|done].
    case_decide; [|done]. destruct Hno. by exists a.
  - intros (a & Ha & He) Hno. rewrite Ha. rewrite decide_True by done. simpl.
    destruct (sucursales st !! sac_sucursal_id payload) as [s|] eqn:Es; [|done].
    case_decide; [|done]. destruct Hno. by exists s.
  - intros (a & Ha & He) (s & Hs & Hes) Hin. rewrite Ha.
    rewrite decide_True by done. simpl. rewrite Hs.
    rewrite decide_True by done. simpl. by rewrite decide_True.
  - intros (a & Ha & He) (s & Hs & Hes) Hnotin. rewrite Ha.
    rewrite decide_True by done. simpl. rewrite Hs.
    rewrite decide_True by done. simpl. rewrite decide_False by done.
    rewrite Hs, Ha. by rewrite decide_True.
Qed.

Lemma link_sucursal_to_almacen_outcome_witness :
  link_sucursal_to_almacen 4 {| sac_sucursal_id := 1 |} Sample.empresa_1 Sample.store
  = (Raise (HTTPException 400
              "Almacen does not belong to your company or does not exist"),
     Sample.store)
  ∧ link_sucursal_to_almacen 1 {| sac_sucursal_id := 3 |} Sample.empresa_1
      Sample.store
    = (Raise (HTTPException 400
                "Sucursal does not belong to your company or does not exist"),
       Sample.store)
  ∧ link_sucursal_to_almacen 1 {| sac_sucursal_id := 2 |} Sample.empresa_1
      Sample.store
    = (Raise IntegrityError, Sample.store)
  ∧ (link_sucursal_to_almacen 1 {| sac_sucursal_id := 1 |} Sample.empresa_1
       Sample.store).1
    = Ok {| sar_sucursales_id_sucursal := 1; sar_almacenes_id_almacen := 1 |}.
Proof.
  assert (almacen_en_empresa Sample.store 1 1) as Ha
    by (exists Sample.deposito; by vm_compute).
  assert (sucursal_en_empresa Sample.store 1 1) as Hs1
    by (exists Sample.centro; by vm_compute).
  assert (sucursal_en_empresa Sample.store 1 2) as Hs2
    by (exists Sample.cerrada; by vm_compute).
  split; [|split; [|split]].
  - apply (link_sucursal_to_almacen_outcome 4 _ Sample.empresa_1 Sample.store).
    intros [a [Ha4 He]]. vm_compute in Ha4. discriminate Ha4.
  - apply (link_sucursal_to_almacen_outcome 1 {| sac_sucursal_id := 3 |}
             Sample.empresa_1 Sample.store); [done|].
    intros [s [Hs3 He]]. vm_compute in Hs3. injection Hs3 as <-. discriminate He.
  - apply (link_sucursal_to_almacen_outcome 1 {| sac_sucursal_id := 2 |}
             Sample.empresa_1 Sample.store); [done..|].
    by vm_compute.
  - destruct (link_sucursal_to_almacen_outcome 1 {| sac_sucursal_id := 1 |}
                Sample.empresa_1 Sample.store) as (_ & _ & _ & Hok).
    rewrite Hok; [done..|].
    intros Hin. vm_compute in Hin. discriminate Hin.
Defined.

(** X10. The outcomes of unlinking a branch from a warehouse: 404 when the
    warehouse is not the caller's company's, 404 when there is no link row
    for the pair, each with the store unchanged; otherwise the store loses
    exactly that link row, and neither the branch nor the warehouse.  The
    branch's own company is not looked at. *)
Theorem unlink_sucursal_from_almacen_outcome
    (almacen_id sucursal_id : Z) (cu : CurrentUser) (st : Store) :
  (¬ almacen_en_empresa st (id_empresa (empresa cu)) almacen_id →
   unlink_sucursal_from_almacen almacen_id sucursal_id cu st =
     (Raise (HTTPException HTTP_404_NOT_FOUND "Warehouse not found in your company"),
      st))
  ∧ (almacen_en_empresa st (id_empresa (empresa cu)) almacen_id →
     (sucursal_id, almacen_id) ∉ sucursales_almacenes st →
     unlink_sucursal_from_almacen almacen_id sucursal_id cu st =
       (Raise (HTTPException HTTP_404_NOT_FOUND "Link not found"), st))
  ∧ (almacen_en_empresa st (id_empresa (empresa cu)) almacen_id →
     (sucursal_id, almacen_id) ∈ sucursales_almacenes st →
     unlink_sucursal_from_almacen almacen_id sucursal_id cu st =
       (Ok tt,
        with_sucursales_almacenes
          (sucursales_almacenes st ∖ {[ (sucursal_id, almacen_id) ]}) st)).
Proof.
  unfold unlink_sucursal_from_almacen. unfold_M. repeat split.
  - intros Hno. destruct (almacenes st !! almacen_id) as [a|] eqn:Ea; [|done].
    case_decide; [|done]. destruct Hno. by exists a.
  - intros (a & -> & He) Hnotin. rewrite decide_True by done. simpl.
    by rewrite decide_False.
  - intros (a & -> & He) Hin. rewrite decide_True by done. simpl.
    by rewrite decide_True.
Qed.

Lemma unlink_sucursal_from_almacen_outcome_witness :
  unlink_sucursal_from_almacen 1 2 Sample.empresa_2 Sample.store
  = (Raise (HTTPException 404 "Warehouse not found in your company"), Sample.store)
  ∧ unlink_sucursal_from_almacen 1 1 Sample.empresa_1 Sample.store
    = (Raise (HTTPException 404 "Link not found"), Sample.store)
  ∧ unlink_sucursal_from_almacen 1 2 Sample.empresa_1 Sample.store
    = (Ok tt,
       with_sucursales_almacenes
         (sucursales_almacenes Sample.store ∖ {[ (2, 1) ]}) Sample.store).
Proof.
  assert (almacen_en_empresa Sample.store 1 1) as Ha
    by (exists Sample.deposito; by vm_compute).
  split; [|split].
  - apply (unlink_sucursal_from_almacen_outcome 1 2 Sample.empresa_2 Sample.store).
    intros [a [Ha1 He]]. vm_compute in Ha1. injection Ha1 as <-. discriminate He.
  - apply (unlink_sucursal_from_almacen_outcome 1 1 Sample.empresa_1 Sample.store);
      [done|].
    intros Hin. vm_compute in Hin. discriminate Hin.
  - apply (unlink_sucursal_from_almacen_outcome 1 2 Sample.empresa_1 Sample.store);
      [done|].
    by vm_compute.
Defined.

(** X11. Link, then unlink: when linking a branch to a warehouse answers,
    unlinking that branch from that warehouse by the same caller, on the
    store the link left, succeeds and gives back the store from before the
    link. *)
Theorem link_then_unlink
    (almacen_id : Z) (payload : SucursalAlmacenCreate) (cu : CurrentUser)
    (st st1 : Store) (r : SucursalAlmacenResponse) :
  link_sucursal_to_almacen almacen_id payload cu st = (Ok r, st1) →
  unlink_sucursal_from_almacen almacen_id (sac_sucursal_id payload) cu st1
    = (Ok tt, st).
Proof.
  intros Hlink.
  destruct (link_sucursal_to_almacen_spec almacen_id payload cu st)
    as [[e He]|((a & Ha & Hea) & Hs & Hok)]; [congruence|].
  assert ((sac_sucursal_id payload, almacen_id) ∉ sucursales_almacenes st) as Hnew.
  { intros Hin. revert Hlink.
    unfold link_sucursal_to_almacen. unfold_M. rewrite Ha.
    rewrite decide_True by done. simpl.
    destruct Hs as (s & Hs & Hes). rewrite Hs.
    rewrite decide_True by done. simpl. by rewrite decide_True. }
  rewrite Hok in Hlink. simplify_eq.
  unfold unlink_sucursal_from_almacen. unfold_M. simpl. rewrite Ha.
  rewrite decide_True by done. simpl.
  rewrite decide_True by (apply elem_of_union_l; by apply elem_of_singleton).
  destruct st as [ss aa sa uu us]. simpl in *.
  do 2 f_equal. apply set_eq. intros p.
  rewrite elem_of_difference, elem_of_union, elem_of_singleton.
  split; [by intros [[->|Hp] Hne]|].
  intros Hp. split; [by right|]. by intros ->.
Qed.

Lemma link_then_unlink_witness :
  unlink_sucursal_from_almacen 1 1 Sample.empresa_1
    (link_sucursal_to_almacen 1 {| sac_sucursal_id := 1 |} Sample.empresa_1
       Sample.store).2
  = (Ok tt, Sample.store).
Proof.
  apply (link_then_unlink 1 {| sac_sucursal_id := 1 |} Sample.empresa_1
           Sample.store _
           {| sar_sucursales_id_sucursal := 1; sar_almacenes_id_almacen := 1 |}).
  by vm_compute.
Defined.

(** X12. A link shows in both join listings: after linking a branch to a
    warehouse answers, the listing of the branches of that warehouse holds
    the image of the branch and the listing of the warehouses of that branch
    holds the image of the warehouse, for the caller that linked them. *)
Theorem link_then_listed
    (almacen_id : Z) (payload : SucursalAlmacenCreate) (cu : CurrentUser)
    (st st1 : Store) (r : SucursalAlmacenResponse) :
  link_sucursal_to_almacen almacen_id payload cu st = (Ok r, st1) →
  ∃ s a ls la,
    sucursales st !! sac_sucursal_id payload = Some s
    ∧ almacenes st !! almacen_id = Some a
    ∧ list_sucursales_de_almacen almacen_id cu st1 = (Ok ls, st1)
    ∧ SucursalResponse_of (sac_sucursal_id payload) s ∈ ls
    ∧ list_almacenes_de_sucursal (sac_sucursal_id payload) cu st1 = (Ok la, st1)
    ∧ AlmacenResponse_of almacen_id a ∈ la.
Proof.
  intros Hlink.
  destruct (link_sucursal_to_almacen_spec almacen_id payload cu st)
    as [[e He]|((a & Ha & Hea) & (s & Hs & Hes) & Hok)]; [congruence|].
  rewrite Hok in Hlink. simplify_eq.
  exists s, a. eexists _, _. split; [done|]. split; [done|].
  split; [apply list_sucursales_de_almacen_join; by exists a|].
  split.
  { apply list_elem_of_fmap. exists (sac_sucursal_id payload, s). split; [done|].
    apply elem_of_order_by_key_join_rows. split; [done|]. split; [done|].
    exists (sac_sucursal_id payload, almacen_id). rewrite elem_of_elements. simpl.
    split; [|done]. apply elem_of_union_l. by apply elem_of_singleton. }
  split; [apply list_almacenes_de_sucursal_join; by exists s|].
  apply list_elem_of_fmap. exists (almacen_id, a). split; [done|].
  apply elem_of_order_by_key_join_rows. split; [done|]. split; [done|].
  exists (sac_sucursal_id payload, almacen_id). rewrite elem_of_elements. simpl.
  split; [|done]. apply elem_of_union_l. by apply elem_of_singleton.
Qed.

Lemma link_then_listed_witness :
  (list_sucursales_de_almacen 1 Sample.empresa_1
     (link_sucursal_to_almacen 1 {| sac_sucursal_id := 1 |} Sample.empresa_1
        Sample.store).2).1
  = Ok [SucursalResponse_of 1 Sample.centro; SucursalResponse_of 2 Sample.cerrada]
  ∧ ∃ s a ls la,
      sucursales Sample.store !! 1 = Some s
      ∧ almacenes Sample.store !! 1 = Some a
      ∧ list_sucursales_de_almacen 1 Sample.empresa_1
          (link_sucursal_to_almacen 1 {| sac_sucursal_id := 1 |} Sample.empresa_1
             Sample.store).2
        = (Ok ls,
           (link_sucursal_to_almacen 1 {| sac_sucursal_id := 1 |} Sample.empresa_1
              Sample.store).2)
      ∧ SucursalResponse_of 1 s ∈ ls
      ∧ list_almacenes_de_sucursal 1 Sample.empresa_1
          (link_sucursal_to_almacen 1 {| sac_sucursal_id := 1 |} Sample.empresa_1
             Sample.store).2
        = (Ok la,
           (link_sucursal_to_almacen 1 {| sac_sucursal_id := 1 |} Sample.empresa_1
              Sample.store).2)
      ∧ AlmacenResponse_of 1 a ∈ la.
Proof.
  split; [by vm_compute|].
  apply (link_then_listed 1 {| sac_sucursal_id := 1 |} Sample.empresa_1
           Sample.store _
           {| sar_sucursales_id_sucursal := 1; sar_almacenes_id_almacen := 1 |}).
  by vm_compute.
Defined.

(** ** Create, then read *)

(** X13. A created entity is read back as it was answered: the response of
    [create_sucursal] (which always answers) and the response of a
    [create_almacen] that answers are what [get_sucursal] and [get_almacen]
    answer for the new id to a caller of the same company, on the store the
    create left; the new row carries the caller's company, and [estado] true
    unless the body says otherwise. *)
Theorem create_then_get
    (cu cu' : CurrentUser) (now : Z) (st : Store) :
  id_empresa (empresa cu') = id_empresa (empresa cu) →
  (∀ body : SucursalCreate,
     ∃ r st1, create_sucursal body cu now st = (Ok r, st1)
              ∧ get_sucursal (sr_id_sucursal r) cu' st1 = (Ok r, st1)
              ∧ sr_estado r = Some (default true (sc_estado body))
              ∧ sucursal_en_empresa st1 (id_empresa (empresa cu)) (sr_id_sucursal r)
              ∧ sucursales st !! sr_id_sucursal r = None)
  ∧ (∀ (body : AlmacenCreate) r st1,
       create_almacen body cu now st = (Ok r, st1) →
       get_almacen (ar_id_almacen r) cu' st1 = (Ok r, st1)
       ∧ ar_estado r = Some (default true (ac_estado body))
       ∧ almacen_en_empresa st1 (id_empresa (empresa cu)) (ar_id_almacen r)
       ∧ almacenes st !! ar_id_almacen r = None).
Proof.
  intros Hcu. split.
  - intros body. unfold create_sucursal, get_sucursal. unfold_M. simpl.
    eexists _, _. split; [done|]. simpl. rewrite lookup_insert_eq. simpl.
    rewrite decide_True by done. split; [done|].
    split; [by destruct (sc_estado body)|].
    split; [|apply autoincrement_fresh].
    eexists. simpl. rewrite lookup_insert_eq. done.
  - intros body r st1 Hcreate. rewrite create_almacen_spec in Hcreate.
    destruct (sucursales st !! ac_sucursal_id body) as [s|]; [|done].
    case_decide; [|done]. simpl in Hcreate.
    case_decide; [done|]. simplify_eq.
    unfold get_almacen. unfold_M. simpl. rewrite lookup_insert_eq. simpl.
    rewrite decide_True by done. split; [done|].
    split; [by destruct (ac_estado body)|].
    split; [|apply autoincrement_fresh].
    eexists. simpl. rewrite lookup_insert_eq. done.
Qed.

Lemma create_then_get_witness :
  (∃ r st1,
     create_sucursal Sample.nueva_sucursal Sample.empresa_1 1700002000 Sample.store
       = (Ok r, st1)
     ∧ sr_id_sucursal r = 4
     ∧ get_sucursal (sr_id_sucursal r) Sample.empresa_1 st1 = (Ok r, st1))
  ∧ get_almacen 2 Sample.empresa_1
      (create_almacen (Sample.nuevo_almacen 1) Sample.empresa_1 1700001000
         Sample.store).2
    = (Ok (AlmacenResponse_of 2 (new_almacen (Sample.nuevo_almacen 1)
                                   Sample.empresa_1 1700001000)),
       (create_almacen (Sample.nuevo_almacen 1) Sample.empresa_1 1700001000
          Sample.store).2).
Proof.
  destruct (create_then_get Sample.empresa_1 Sample.empresa_1 1700002000
              Sample.store eq_refl) as [Hsuc _].
  destruct (create_then_get Sample.empresa_1 Sample.empresa_1 1700001000
              Sample.store eq_refl) as [_ Halm].
  split.
  - destruct (Hsuc Sample.nueva_sucursal) as (r & st1 & Hc & Hg & _).
    exists r, st1. split; [done|]. split; [|done].
    vm_compute in Hc. injection Hc as Hr _. by rewrite <- Hr.
  - apply (Halm (Sample.nuevo_almacen 1)
             (AlmacenResponse_of 2 (new_almacen (Sample.nuevo_almacen 1)
                                      Sample.empresa_1 1700001000))).
    by vm_compute.
Defined.

(** ** Partial update, again *)

Lemma updated_sucursal_idem (s s' : Sucursal) (body : SucursalUpdate) :
  updated_sucursal s body = Some s' → updated_sucursal s' body = Some s'.
Proof.
  unfold updated_sucursal, setattr. intros H.
  destruct body as [[[n|]|] [[d|]|] [t|] [[e|]|]]; simpl in *; simplify_eq; done.
Qed.

Lemma updated_almacen_idem (a a' : Almacen) (body : AlmacenUpdate) :
  updated_almacen a body = Some a' → updated_almacen a' body = Some a'.
Proof.
  unfold updated_almacen, setattr. intros H.
  destruct body as [[[n|]|] [d|] [[p|]|] [[e|]|]]; simpl in *; simplify_eq; done.
Qed.

(** X14. A PATCH with an empty body changes nothing and answers with the
    row as stored; and a PATCH can be repeated: sending the same body again
    on the store the first one left gives the same answer and the same
    store, for every body, id, caller and store. *)
Theorem patch_unset_and_repeated (id : Z) (cu : CurrentUser) (st : Store) :
  (∀ s, sucursales st !! id = Some s →
        s_empresas_id_empresa s = id_empresa (empresa cu) →
        update_sucursal id SucursalUpdate_unset cu st
          = (Ok (SucursalResponse_of id s), st))
  ∧ (∀ a, almacenes st !! id = Some a →
          a_empresas_id_empresa a = id_empresa (empresa cu) →
          update_almacen id AlmacenUpdate_unset cu st
            = (Ok (AlmacenResponse_of id a), st))
  ∧ (∀ body, update_sucursal id body cu (update_sucursal id body cu st).2
             = update_sucursal id body cu st)
  ∧ (∀ body, update_almacen id body cu (update_almacen id body cu st).2
             = update_almacen id body cu st).
Proof.
  split; [|split; [|split]].
  - intros s Hs He. rewrite update_sucursal_spec, Hs.
    rewrite decide_True by done.
    destruct s, st; simpl in *. by rewrite insert_id.
  - intros a Ha He. rewrite update_almacen_spec, Ha.
    rewrite decide_True by done.
    destruct a, st; simpl in *. by rewrite insert_id.
  - intros body. rewrite (update_sucursal_spec id body cu st).
    destruct (sucursales st !! id) as [s|] eqn:Es; simpl;
      [|by rewrite update_sucursal_spec, Es].
    case_decide as He; simpl;
      [|by rewrite update_sucursal_spec, Es, decide_False].
    destruct (updated_sucursal s body) as [s'|] eqn:Eu; simpl.
    + rewrite update_sucursal_spec. simpl. rewrite lookup_insert_eq.
      pose proof (updated_sucursal_frame _ _ _ Eu) as (_ & Hc & _).
      rewrite decide_True by congruence.
      rewrite (updated_sucursal_idem _ _ _ Eu). by rewrite insert_insert_eq.
    + by rewrite update_sucursal_spec, Es, decide_True, Eu.
  - intros body. rewrite (update_almacen_spec id body cu st).
    destruct (almacenes st !! id) as [a|] eqn:Ea; simpl;
      [|by rewrite update_almacen_spec, Ea].
    case_decide as He; simpl;
      [|by rewrite update_almacen_spec, Ea, decide_False].
    destruct (updated_almacen a body) as [a'|] eqn:Eu; simpl.
    + rewrite update_almacen_spec. simpl. rewrite lookup_insert_eq.
      pose proof (updated_almacen_frame _ _ _ Eu) as (_ & Hc & _).
      rewrite decide_True by congruence.
      rewrite (updated_almacen_idem _ _ _ Eu). by rewrite insert_insert_eq.
    + by rewrite update_almacen_spec, Ea, decide_True, Eu.
Qed.

Lemma patch_unset_and_repeated_witness :
  update_sucursal 1 SucursalUpdate_unset Sample.empresa_1 Sample.store
  = (Ok (SucursalResponse_of 1 Sample.centro), Sample.store)
  ∧ update_almacen 1 AlmacenUpdate_unset Sample.empresa_1 Sample.store
    = (Ok (AlmacenResponse_of 1 Sample.deposito), Sample.store)
  ∧ update_sucursal 1 Sample.renombrar Sample.empresa_1
      (update_sucursal 1 Sample.renombrar Sample.empresa_1 Sample.store).2
    = update_sucursal 1 Sample.renombrar Sample.empresa_1 Sample.store.
Proof.
  destruct (patch_unset_and_repeated 1 Sample.empresa_1 Sample.store)
    as (Hs & Ha & Hrep & _).
  split; [by apply Hs|]. split; [by apply Ha|]. apply Hrep.
Defined.

(** ** What a request leaves alone *)

Lemma endpoint_other_sucursales (em : string → option string) (req : Request) (cu : CurrentUser) (st : Store)
    (id : Z) (s : Sucursal) :
  sucursales st !! id = Some s →
  s_empresas_id_empresa s ≠ id_empresa (empresa cu) →
  sucursales (endpoint em req cu st).2 !! id = Some s.
Proof.
  intros Hs Hne.
  assert (∀ x : Sucursal, <[autoincrement (sucursales st) := x]> (sucursales st) !! id
                          = Some s) as Hfresh.
  { intros x. rewrite lookup_insert_ne; [done|].
    intros <-. by rewrite autoincrement_fresh in Hs. }
  destruct req; simpl; unfold_handlers; simpl;
    repeat (case_match; simpl in *; simplify_eq); eauto;
    rewrite lookup_insert_ne; eauto; intros ->; simplify_eq.
Qed.

Lemma endpoint_other_almacenes (em : string → option string) (req : Request) (cu : CurrentUser) (st : Store)
    (id : Z) (a : Almacen) :
  almacenes st !! id = Some a →
  a_empresas_id_empresa a ≠ id_empresa (empresa cu) →
  almacenes (endpoint em req cu st).2 !! id = Some a.
Proof.
  intros Ha Hne.
  assert (∀ x : Almacen, <[autoincrement (almacenes st) := x]> (almacenes st) !! id
                         = Some a) as Hfresh.
  { intros x. rewrite lookup_insert_ne; [done|].
    intros <-. by rewrite autoincrement_fresh in Ha. }
  destruct req; simpl; unfold_handlers; simpl;
    repeat (case_match; simpl in *; simplify_eq); eauto;
    rewrite lookup_insert_ne; eauto; intros ->; simplify_eq.
Qed.

Lemma endpoint_other_links (em : string → option string) (req : Request) (cu : CurrentUser) (st : Store)
    (s a : Z) (ra : Almacen) :
  (s, a) ∈ sucursales_almacenes st →
  almacenes st !! a = Some ra →
  a_empresas_id_empresa ra ≠ id_empresa (empresa cu) →
  (s, a) ∈ sucursales_almacenes (endpoint em req cu st).2.
Proof.
  intros Hin Ha Hne.
  destruct req; simpl; unfold_handlers; simpl;
    repeat (case_match; simpl in *; simplify_eq); eauto;
    try (apply elem_of_union_r; done).
  apply elem_of_difference. split; [done|].
  intros Heq%elem_of_singleton. simplify_eq.
Qed.

Lemma endpoint_other_asignaciones (em : string → option string) (req : Request) (cu : CurrentUser) (st : Store)
    (u s : Z) (rs : Sucursal) :
  (u, s) ∈ usuarios_sucursales st →
  sucursales st !! s = Some rs →
  s_empresas_id_empresa rs ≠ id_empresa (empresa cu) →
  (u, s) ∈ usuarios_sucursales (endpoint em req cu st).2.
Proof.
  intros Hin Hs Hne.
  destruct req; simpl; unfold_handlers; simpl;
    repeat (case_match; simpl in *; simplify_eq); eauto;
    try (apply elem_of_union_r; done).
  apply elem_of_difference. split; [done|].
  intros Heq%elem_of_singleton. simplify_eq.
Qed.

Lemma endpoint_usuarios (em : string → option string) (req : Request) (cu : CurrentUser) (st : Store) :
  usuarios (endpoint em req cu st).2 = usuarios st.
Proof.
  destruct req; simpl; unfold_handlers; simpl;
    repeat (case_match; simpl in *; simplify_eq); eauto.
Qed.

(** X15. A request never touches another company's data: whatever the
    request and whether it answers or raises, every branch row and every
    warehouse row of a company other than the caller's is afterwards
    exactly as before, and so is every link row to such a warehouse and
    every assignment row to such a branch; the same holds for a sequence of
    requests by callers of one company. *)
Theorem other_companies_untouched
    (rp : CurrentUser → string → string → bool)
    (em : string → option string)
    (req : Request) (cu : CurrentUser) (st : Store) :
  (∀ id s, sucursales st !! id = Some s →
           s_empresas_id_empresa s ≠ id_empresa (empresa cu) →
           sucursales (handle rp em req cu st).2 !! id = Some s)
  ∧ (∀ id a, almacenes st !! id = Some a →
             a_empresas_id_empresa a ≠ id_empresa (empresa cu) →
             almacenes (handle rp em req cu st).2 !! id = Some a)
  ∧ (∀ s a ra, (s, a) ∈ sucursales_almacenes st →
               almacenes st !! a = Some ra →
               a_empresas_id_empresa ra ≠ id_empresa (empresa cu) →
               (s, a) ∈ sucursales_almacenes (handle rp em req cu st).2)
  ∧ (∀ u s rs, (u, s) ∈ usuarios_sucursales st →
               sucursales st !! s = Some rs →
               s_empresas_id_empresa rs ≠ id_empresa (empresa cu) →
               (u, s) ∈ usuarios_sucursales (handle rp em req cu st).2)
  ∧ (∀ reqs e,
       Forall (λ rc, id_empresa (empresa rc.2) = e) reqs →
       (∀ id s, sucursales st !! id = Some s → s_empresas_id_empresa s ≠ e →
                sucursales (run rp em reqs st) !! id = Some s)
       ∧ (∀ id a, almacenes st !! id = Some a → a_empresas_id_empresa a ≠ e →
                  almacenes (run rp em reqs st) !! id = Some a)).
Proof.
  split; [|split; [|split; [|split]]].
  - intros id s Hs Hne.
    destruct (handle_cases rp em req cu st) as [-> | ->]; [|done].
    by apply endpoint_other_sucursales.
  - intros id a Ha Hne.
    destruct (handle_cases rp em req cu st) as [-> | ->]; [|done].
    by apply endpoint_other_almacenes.
  - intros s a ra Hin Ha Hne.
    destruct (handle_cases rp em req cu st) as [-> | ->]; [|done].
    by eapply endpoint_other_links.
  - intros u s rs Hin Hs Hne.
    destruct (handle_cases rp em req cu st) as [-> | ->]; [|done].
    by eapply endpoint_other_asignaciones.
  - intros reqs e Hreqs. revert st.
    induction Hreqs as [|[req' cu'] reqs Hcu _ IH]; intros st; simpl; [done|].
    simpl in Hcu. destruct (IH (handle rp em req' cu' st).2) as [IHs IHa].
    split.
    + intros id s Hs Hne. apply IHs; [|done].
      destruct (handle_cases rp em req' cu' st) as [-> | ->]; [|done].
      apply endpoint_other_sucursales; congruence.
    + intros id a Ha Hne. apply IHa; [|done].
      destruct (handle_cases rp em req' cu' st) as [-> | ->]; [|done].
      apply endpoint_other_almacenes; congruence.
Qed.

Lemma other_companies_untouched_witness :
  sucursales
    (run Sample.permit_all Sample.email_str
       [(UpdateSucursal 3 Sample.renombrar, Sample.empresa_1);
        (DeleteSucursal 3, Sample.empresa_1);
        (DeleteSucursal 1, Sample.empresa_1);
        (CreateAlmacen (Sample.nuevo_almacen 3) 1700001000, Sample.empresa_1)]
       Sample.store) !! 3 = Some Sample.ajena
  ∧ (2, 1) ∈ sucursales_almacenes
               (handle Sample.permit_all Sample.email_str (UnlinkSucursalFromAlmacen 1 2)
                  Sample.empresa_2 Sample.store).2.
Proof.
  destruct (other_companies_untouched Sample.permit_all Sample.email_str ListSucursales
              Sample.empresa_1 Sample.store) as (_ & _ & _ & _ & Hrun).
  destruct (other_companies_untouched Sample.permit_all Sample.email_str
              (UnlinkSucursalFromAlmacen 1 2) Sample.empresa_2 Sample.store)
    as (_ & _ & Hlink & _).
  split.
  - refine (proj1 (Hrun _ 1 _) 3 Sample.ajena _ _);
      [by repeat constructor|by vm_compute|by vm_compute].
  - apply (Hlink 2 1 Sample.deposito); by vm_compute.
Defined.

(** X16. The GET routes are safe: a request of a route registered with
    [router.get] leaves the store as it is, for every caller and store,
    whether it answers or raises; and when it raises an [HTTPException] the
    status is 403 or 404. *)
Theorem get_routes_are_safe
    (rp : CurrentUser → string → string → bool)
    (em : string → option string)
    (req : Request) (cu : CurrentUser) (st : Store) :
  is_get req = true →
  (handle rp em req cu st).2 = st
  ∧ match (handle rp em req cu st).1 with
    | Raise (HTTPException code _) =>
      code = HTTP_403_FORBIDDEN ∨ code = HTTP_404_NOT_FOUND
    | _ => True
    end.
Proof.
  intros Hget.
  destruct (handle_cases rp em req cu st) as [-> | ->]; [|by split; [|left]].
  destruct req; try discriminate Hget; simpl; unfold_handlers; simpl;
    repeat (case_match; simpl in *; simplify_eq); eauto.
Qed.

Lemma get_routes_are_safe_witness :
  (handle Sample.permit_all Sample.email_str (ListUsuariosDeSucursal 3) Sample.empresa_1
     Sample.store).2 = Sample.store
  ∧ (handle Sample.permit_all Sample.email_str (GetAlmacen 1) Sample.empresa_1 Sample.store).2
    = Sample.store.
Proof.
  split.
  - by apply (get_routes_are_safe Sample.permit_all Sample.email_str (ListUsuariosDeSucursal 3)).
  - by apply (get_routes_are_safe Sample.permit_all Sample.email_str (GetAlmacen 1)).
Defined.

Lemma endpoint_asignaciones (em : string → option string) (req : Request) (cu : CurrentUser) (st : Store) (u s : Z) :
  (u, s) ∈ usuarios_sucursales (endpoint em req cu st).2 →
  (u, s) ∈ usuarios_sucursales st
  ∨ (usuario_en_empresa st (id_empresa (empresa cu)) u
     ∧ sucursal_en_empresa st (id_empresa (empresa cu)) s).
Proof.
  destruct req; simpl; unfold_handlers; simpl;
    repeat (case_match; simpl in *; simplify_eq); eauto.
  - intros [Hnew%elem_of_singleton|Hold]%elem_of_union; [|by left].
    simplify_eq. right. split; eexists; eauto.
  - intros [Hold _]%elem_of_difference. by left.
Qed.

(** X17. Assignments stay inside a company: no request changes the users
    table, and an assignment row that a request adds connects a user and a
    branch that both belong to the caller's company. *)
Theorem asignaciones_same_company
    (rp : CurrentUser → string → string → bool)
    (em : string → option string)
    (req : Request) (cu : CurrentUser) (st : Store) :
  usuarios (handle rp em req cu st).2 = usuarios st
  ∧ ∀ u s, (u, s) ∈ usuarios_sucursales (handle rp em req cu st).2 →
           (u, s) ∉ usuarios_sucursales st →
           usuario_en_empresa st (id_empresa (empresa cu)) u
           ∧ sucursal_en_empresa st (id_empresa (empresa cu)) s.
Proof.
  destruct (handle_cases rp em req cu st) as [-> | ->]; [|done].
  split; [apply endpoint_usuarios|].
  intros u s Hin Hnew.
  by destruct (endpoint_asignaciones em req cu st u s Hin).
Qed.

Lemma asignaciones_same_company_witness :
  usuario_en_empresa Sample.store 1 7 ∧ sucursal_en_empresa Sample.store 1 2.
Proof.
  apply (asignaciones_same_company Sample.permit_all Sample.email_str
           (AssignUsuarioToSucursal 2 {| usc_usuario_id := 7 |})
           Sample.empresa_1 Sample.store); [by vm_compute|].
  intros Hin. vm_compute in Hin. discriminate Hin.
Defined.

(** ** Soft delete and the join listings *)

(** X18. A soft delete does not change what the join listings of the
    deleted entity answer: after a delete of a branch that answered 204, the
    listings of the warehouses and of the users of that branch answer, to
    every caller, what they answered before; and after a delete of a
    warehouse, so does the listing of its branches.  Link and assignment
    rows of a deleted entity stay. *)
Theorem soft_delete_keeps_join_listings (em : string → option string)
    (id : Z) (cu cu' : CurrentUser) (st : Store) :
  (∀ st1, delete_sucursal id cu st = (Ok tt, st1) →
          (list_almacenes_de_sucursal id cu' st1).1
            = (list_almacenes_de_sucursal id cu' st).1
          ∧ (list_usuarios_de_sucursal em id cu' st1).1
            = (list_usuarios_de_sucursal em id cu' st).1
          ∧ sucursales_almacenes st1 = sucursales_almacenes st
          ∧ usuarios_sucursales st1 = usuarios_sucursales st)
  ∧ (∀ st1, delete_almacen id cu st = (Ok tt, st1) →
            (list_sucursales_de_almacen id cu' st1).1
              = (list_sucursales_de_almacen id cu' st).1
            ∧ sucursales_almacenes st1 = sucursales_almacenes st).
Proof.
  split; intros st1 Hdel.
  - apply delete_sucursal_ok in Hdel as (s & s1 & Hs & Hs1 & -> & He & ->).
    unfold list_almacenes_de_sucursal, list_usuarios_de_sucursal. unfold_M. simpl.
    rewrite lookup_insert_eq, Hs. simpl.
    repeat split; case_decide; simpl; try case_match; done.
  - apply delete_almacen_ok in Hdel as (a & a1 & Ha & Ha1 & -> & He & ->).
    unfold list_sucursales_de_almacen. unfold_M. simpl.
    rewrite lookup_insert_eq, Ha. simpl.
    repeat split; by case_decide.
Qed.

Lemma soft_delete_keeps_join_listings_witness :
  (list_almacenes_de_sucursal 2 Sample.empresa_1
     (delete_sucursal 2 Sample.empresa_1 Sample.store).2).1
  = Ok [AlmacenResponse_of 1 Sample.deposito]
  ∧ (list_sucursales_de_almacen 1 Sample.empresa_1
       (delete_almacen 1 Sample.empresa_1 Sample.store).2).1
    = Ok [SucursalResponse_of 2 Sample.cerrada].
Proof.
  destruct (soft_delete_keeps_join_listings Sample.email_str 2 Sample.empresa_1 Sample.empresa_1
              Sample.store) as [Hsuc _].
  destruct (soft_delete_keeps_join_listings Sample.email_str 1 Sample.empresa_1 Sample.empresa_1
              Sample.store) as [_ Halm].
  split.
  - destruct (Hsuc (delete_sucursal 2 Sample.empresa_1 Sample.store).2)
      as (-> & _); by vm_compute.
  - destruct (Halm (delete_almacen 1 Sample.empresa_1 Sample.store).2)
      as (-> & _); by vm_compute.
Defined.

(** ** Errors *)

(** X19. An error answered by a handler never leaves a partial write: when
    a request raises an [HTTPException] the status is 400, 403 or 404 and
    the store is exactly as before the request, because every check of a
    handler comes before its first write. *)
Theorem http_errors_leave_store
    (rp : CurrentUser → string → string → bool)
    (em : string → option string)
    (req : Request) (cu : CurrentUser) (st : Store) :
  match (handle rp em req cu st).1 with
  | Raise (HTTPException code _) =>
    (handle rp em req cu st).2 = st
    ∧ (code = HTTP_400_BAD_REQUEST ∨ code = HTTP_403_FORBIDDEN
       ∨ code = HTTP_404_NOT_FOUND)
  | _ => True
  end.
Proof.
  destruct (handle_cases rp em req cu st) as [-> | ->]; [|by simpl; eauto].
  destruct req; simpl; unfold_handlers; simpl;
    repeat (case_match; simpl in *; simplify_eq); eauto.
Qed.

Lemma http_errors_leave_store_witness :
  (handle Sample.permit_all Sample.email_str
     (CreateAlmacen (Sample.nuevo_almacen 3) 1700001000) Sample.empresa_1
     Sample.store).2 = Sample.store
  ∧ (handle Sample.permit_all Sample.email_str
       (LinkSucursalToAlmacen 1 {| sac_sucursal_id := 3 |}) Sample.empresa_1
       Sample.store).2 = Sample.store.
Proof.
  pose proof (http_errors_leave_store Sample.permit_all Sample.email_str
                (CreateAlmacen (Sample.nuevo_almacen 3) 1700001000)
                Sample.empresa_1 Sample.store) as H1.
  pose proof (http_errors_leave_store Sample.permit_all Sample.email_str
                (LinkSucursalToAlmacen 1 {| sac_sucursal_id := 3 |})
                Sample.empresa_1 Sample.store) as H2.
  split.
  - destruct (handle _ _ (CreateAlmacen _ _) _ _).1 as [r|[code d| | |]] eqn:E;
      try (vm_compute in E; discriminate E). by destruct H1.
  - destruct (handle _ _ (LinkSucursalToAlmacen _ _) _ _).1 as [r|[code d| | |]] eqn:E;
      try (vm_compute in E; discriminate E). by destruct H2.
Defined.

(** ** The frame of a delete *)


